(** * A shallow embedding of the AI-news scraper's fetch / cache / dedup
      pipeline

    The Python sources embedded here are [database.py] (class [Database]),
    [request_handler.py] (class [RequestHandler]) and [scraper.py] (class
    [AINewsScraper]).  The program is sequential, so every method is a
    function from the state of the world to a result and a new state. *)

From stdpp Require Import gmap strings list fin_maps pretty.
From Stdlib Require Import ZArith Lia Ascii.

Local Open Scope Z_scope.

(** ** Python values and SQL rows *)

(** The values found in an article dictionary.  [PyObj] stands for any
    object the [sqlite3] driver cannot bind to a statement parameter (a
    list, a dict, ...). *)
Inductive pyval := PyNone | PyStr (s : string) | PyObj.

#[global] Instance pyval_eq_dec : EqDecision pyval.
Proof. solve_decision. Defined.

(** An article as [ContentExtractor.extract_article_data] returns it: a
    dictionary. *)
Abbreviation Article := (gmap string pyval).

(** A row of table [articles] ([Database.setup_database]); a nullable column
    is an [option], [title] is [TEXT NOT NULL]. *)
Record ArticleRow := mkArticleRow {
  a_id : Z;
  a_title : string;
  a_content : option string;
  a_url : option string;
  a_published_date : option string;
  a_source : option string;
  a_scrape_date : option string;
  a_keywords : option string
}.

#[global] Instance ArticleRow_eq_dec : EqDecision ArticleRow.
Proof. solve_decision. Defined.

(** A row of table [request_cache].  [timestamp] holds the text
    ['%Y-%m-%d %H:%M:%S']; the format is fixed-width, so its text order is
    the order of the instants, and the column is kept as the number of whole
    seconds it denotes.  [headers] is never written. *)
Record CacheRow := mkCacheRow {
  c_url_hash : string;
  c_url : string;
  c_response : string;
  c_headers : option string;
  c_timestamp : Z
}.

#[global] Instance CacheRow_eq_dec : EqDecision CacheRow.
Proof. solve_decision. Defined.

(** A file of the cache directory: its text ([None] when reading it as
    UTF-8 raises) and its modification time. *)
Record File := mkFile { f_text : option string; f_mtime : Z }.

#[global] Instance File_eq_dec : EqDecision File.
Proof. solve_decision. Defined.

(** ** Log records *)

Inductive Level := INFO | WARNING | ERROR.

(** One constructor per [logging] call of the three classes. *)
Inductive Msg :=
  | LoadedExistingUrls (n : nat)
  | NoArticlesToSave
  | ErrorSavingArticle
  | SavedArticles (n : nat)
  | ErrorSavingDbCache
  | ClearedDbCache (n : nat)
  | ErrorClearingDbCache
  | ResetVisited
  | ErrorResettingVisited
  | UsingFileCache (url : string)
  | ErrorReadingCacheFile
  | UsingDbCache (url : string)
  | ErrorSavingFileCache
  | AlreadyProcessed (url : string)
  | FetchingURL (url : string)
  | ErrorFetching (url : string)
  | ErrorClearingFileCache
  | ClearedFileCache (n : nat)
  | ScrapingPage (page : nat) (url : string)
  | NoArticlesFound (page : nat)
  | SuccessfullyScraped (title : string)
  | NoNewArticles (page : nat)
  | ErrorProcessingPage (page : nat)
  | ClearedTotal (n : nat).

#[global] Instance Level_eq_dec : EqDecision Level.
Proof. solve_decision. Defined.

#[global] Instance Msg_eq_dec : EqDecision Msg.
Proof. solve_decision. Defined.

(** ** The state of the world

    Time is counted in milliseconds; [time.time()], [datetime.now()] and the
    modification times of files read the same clock.  The lists [requests],
    [naps] and [log] have their newest entry first. *)
Record World := mkWorld {
  clock : Z;                          (* the current time *)
  articles : list ArticleRow;         (* table articles of the SQLite file *)
  request_cache : list CacheRow;      (* table request_cache *)
  db_readonly : bool;                 (* writing statements raise *)
  files : gmap string File;           (* the cache directory, by file name *)
  fs_readonly : bool;                 (* writing or removing a file raises *)
  requests : list string;             (* URLs of the HTTP requests sent *)
  naps : list Z;                      (* durations of the sleeps *)
  draws : nat;                        (* random numbers drawn so far *)
  visited_urls : gset string;         (* AINewsScraper.visited_urls *)
  log : list (Level * Msg)            (* records given to logging *)
}.

Definition set_clock (f : Z → Z) (w : World) : World :=
  mkWorld (f (clock w)) (articles w) (request_cache w) (db_readonly w)
    (files w) (fs_readonly w) (requests w) (naps w) (draws w)
    (visited_urls w) (log w).

Definition set_articles (f : list ArticleRow → list ArticleRow) (w : World) : World :=
  mkWorld (clock w) (f (articles w)) (request_cache w) (db_readonly w)
    (files w) (fs_readonly w) (requests w) (naps w) (draws w)
    (visited_urls w) (log w).

Definition set_request_cache (f : list CacheRow → list CacheRow) (w : World) : World :=
  mkWorld (clock w) (articles w) (f (request_cache w)) (db_readonly w)
    (files w) (fs_readonly w) (requests w) (naps w) (draws w)
    (visited_urls w) (log w).

Definition set_files (f : gmap string File → gmap string File) (w : World) : World :=
  mkWorld (clock w) (articles w) (request_cache w) (db_readonly w)
    (f (files w)) (fs_readonly w) (requests w) (naps w) (draws w)
    (visited_urls w) (log w).

Definition set_requests (f : list string → list string) (w : World) : World :=
  mkWorld (clock w) (articles w) (request_cache w) (db_readonly w)
    (files w) (fs_readonly w) (f (requests w)) (naps w) (draws w)
    (visited_urls w) (log w).

Definition set_naps (f : list Z → list Z) (w : World) : World :=
  mkWorld (clock w) (articles w) (request_cache w) (db_readonly w)
    (files w) (fs_readonly w) (requests w) (f (naps w)) (draws w)
    (visited_urls w) (log w).

Definition set_draws (f : nat → nat) (w : World) : World :=
  mkWorld (clock w) (articles w) (request_cache w) (db_readonly w)
    (files w) (fs_readonly w) (requests w) (naps w) (f (draws w))
    (visited_urls w) (log w).

Definition set_visited_urls (f : gset string → gset string) (w : World) : World :=
  mkWorld (clock w) (articles w) (request_cache w) (db_readonly w)
    (files w) (fs_readonly w) (requests w) (naps w) (draws w)
    (f (visited_urls w)) (log w).

Definition set_log (f : list (Level * Msg) → list (Level * Msg)) (w : World) : World :=
  mkWorld (clock w) (articles w) (request_cache w) (db_readonly w)
    (files w) (fs_readonly w) (requests w) (naps w) (draws w)
    (visited_urls w) (f (log w)).

(** ** The state monad of the methods *)

Definition M (A : Type) : Type := World → A * World.

Definition ret {A} (a : A) : M A := λ w, (a, w).

Definition bind {A B} (c : M A) (k : A → M B) : M B :=
  λ w, let (a, w') := c w in k a w'.

Declare Scope st_scope.
Delimit Scope st_scope with st.
Notation "x <- c ;; k" := (bind c (λ x, k))
  (at level 62, c at next level, right associativity) : st_scope.
Notation "'do' c ;; k" := (bind c (λ _, k))
  (at level 62, c at next level, right associativity) : st_scope.

Definition gets {A} (f : World → A) : M A := λ w, (f w, w).
Definition modify (f : World → World) : M unit := λ w, (tt, f w).

(** [logging.info], [logging.warning], [logging.error]. *)
Definition logging (l : Level) (m : Msg) : M unit :=
  modify (set_log (cons (l, m))).

(** [time.sleep(d)]: the clock moves on by [d]. *)
Definition sleep (d : Z) : M unit :=
  modify (λ w, set_naps (cons d) (set_clock (Z.add d) w)).


(** Python's truth value of [None] or a [str]. *)
Definition truthy (o : option string) : bool :=
  match o with
  | Some s => bool_decide (s ≠ "")
  | None => false
  end.

(** A statement that may raise: [None] is the exception, and the state is
    then the one before the statement. *)
Definition try_ {A B} (stmt : World → option (A * World))
    (ok : A → M B) (except : M B) : M B :=
  λ w, match stmt w with
       | Some (a, w') => ok a w'
       | None => except w
       end.

(** ** database.py: class Database *)

Module Database.

(** [__init__] leaves one attribute on the instance, [db_path]; it then
    calls [setup_database], whose [CREATE TABLE IF NOT EXISTS] statements
    make the two tables of the schema. *)
Definition init (db_path : string) : gmap string pyval :=
  {[ "db_path" := PyStr db_path ]}.

Definition schema_tables : list string := ["articles"; "request_cache"].

(** [DELETE FROM <table>] with no [WHERE] clause, or with [WHERE 1=1]:
    [None] when the table is not in the schema or the file is read-only. *)
Definition delete_from (table : string) (w : World) : option (nat * World) :=
  if db_readonly w then None
  else if bool_decide (table = "articles") then
    Some (length (articles w), set_articles (λ _, []) w)
  else if bool_decide (table = "request_cache") then
    Some (length (request_cache w), set_request_cache (λ _, []) w)
  else None.

(** [get_existing_urls]: the set of the [url] column; a NULL comes back as
    [None], which is no key. *)
Definition get_existing_urls : M (gset string) :=
  (urls <- gets (λ w, list_to_set (omap a_url (articles w)) : gset string) ;;
   do logging INFO (LoadedExistingUrls (size urls)) ;;
   ret urls)%st.

(** [get_cached_response]: [fetchone] of the rows with this [url_hash]. *)
Fixpoint select_by_hash (url_hash : string) (tbl : list CacheRow) : option CacheRow :=
  match tbl with
  | [] => None
  | r :: rest =>
      if bool_decide (c_url_hash r = url_hash) then Some r
      else select_by_hash url_hash rest
  end.

Definition get_cached_response (url_hash : string) : M (option (string * Z)) :=
  gets (λ w, (λ r, (c_response r, c_timestamp r)) <$>
               select_by_hash url_hash (request_cache w)).

(** [INSERT OR REPLACE INTO request_cache]: the rows in conflict with the
    new one, on the primary key [url_hash] or on the unique [url], are
    deleted, then the row is inserted. *)
Definition insert_or_replace (row : CacheRow) (tbl : list CacheRow) : list CacheRow :=
  filter (λ r, c_url_hash r ≠ c_url_hash row ∧ c_url r ≠ c_url row) tbl ++ [row].

Definition save_to_cache (url_hash url content : string) (timestamp : Z) : M unit :=
  try_ (λ w, if db_readonly w then None
             else Some (tt, set_request_cache
                              (insert_or_replace
                                 (mkCacheRow url_hash url content None timestamp)) w))
       (λ _, ret tt)
       (logging ERROR ErrorSavingDbCache).

(** *** save_articles *)

(** Binding a Python value to a statement parameter. *)
Definition bind_param (v : pyval) : option (option string) :=
  match v with
  | PyNone => Some None
  | PyStr s => Some (Some s)
  | PyObj => None
  end.

(** The values of the [INSERT]: [article['title']], ... raise [KeyError] on
    a missing key, binding raises on an unsupported value, and a NULL
    [title] violates [NOT NULL].  The [id] is given when the row is
    stored. *)
Definition insert_values (article : Article) : option ArticleRow :=
  let keywords :=
    match article !! "keywords" with
    | None => PyStr ""
    | Some PyNone => PyStr ""
    | Some v => v
    end in
  title ← article !! "title";
  content ← article !! "content";
  url ← article !! "url";
  published_date ← article !! "published_date";
  source ← article !! "source";
  scrape_date ← article !! "scrape_date";
  title ← bind_param title;
  content ← bind_param content;
  url ← bind_param url;
  published_date ← bind_param published_date;
  source ← bind_param source;
  scrape_date ← bind_param scrape_date;
  keywords ← bind_param keywords;
  title ← title;
  Some (mkArticleRow 0 title content url published_date source scrape_date keywords).

Definition with_id (i : Z) (r : ArticleRow) : ArticleRow :=
  mkArticleRow i (a_title r) (a_content r) (a_url r) (a_published_date r)
    (a_source r) (a_scrape_date r) (a_keywords r).

(** The rowid SQLite gives to a new row of an [INTEGER PRIMARY KEY] table:
    one more than the largest in use, 1 in an empty table. *)
Fixpoint max_rowid (tbl : list ArticleRow) : option Z :=
  match tbl with
  | [] => None
  | r :: rest =>
      Some (match max_rowid rest with
            | None => a_id r
            | Some m => Z.max (a_id r) m
            end)
  end.

Definition next_rowid (tbl : list ArticleRow) : Z :=
  match max_rowid tbl with
  | None => 1
  | Some m => m + 1
  end.

(** [ON CONFLICT(url) DO UPDATE SET ...]: the row that holds the same
    non-NULL [url] takes the new values of the six other columns and keeps
    its [id] and its place; [None] when no row is in conflict. *)
Fixpoint on_conflict_update (new : ArticleRow) (tbl : list ArticleRow)
    : option (list ArticleRow) :=
  match tbl with
  | [] => None
  | old :: rest =>
      if bool_decide (is_Some (a_url new) ∧ a_url old = a_url new)
      then Some (with_id (a_id old) new :: rest)
      else cons old <$> on_conflict_update new rest
  end.

(** The whole statement; the second component is [cursor.rowcount]. *)
Definition upsert (new : ArticleRow) (tbl : list ArticleRow) : list ArticleRow * Z :=
  match on_conflict_update new tbl with
  | Some tbl' => (tbl', 1)
  | None => (tbl ++ [with_id (next_rowid tbl) new], 1)
  end.

Definition execute_upsert (article : Article) (w : World) : option (Z * World) :=
  if db_readonly w then None
  else new ← insert_values article;
       let (tbl, rowcount) := upsert new (articles w) in
       Some (rowcount, set_articles (λ _, tbl) w).

(** The body of the [for] loop, and the loop. *)
Definition save_article (article : Article) (saved_count : nat) : M nat :=
  try_ (execute_upsert article)
       (λ rowcount, ret (if bool_decide (rowcount > 0) then S saved_count
                         else saved_count))
       (do logging ERROR ErrorSavingArticle ;; ret saved_count)%st.

Fixpoint save_loop (arts : list Article) (saved_count : nat) : M nat :=
  match arts with
  | [] => ret saved_count
  | article :: rest =>
      (saved_count <- save_article article saved_count ;;
       save_loop rest saved_count)%st
  end.

Definition save_articles (arts : list Article) : M nat :=
  match arts with
  | [] => (do logging WARNING NoArticlesToSave ;; ret 0%nat)%st
  | _ => (saved_count <- save_loop arts 0%nat ;;
          do logging INFO (SavedArticles saved_count) ;;
          ret saved_count)%st
  end.

(** *** Eviction and reset *)

(** [clear_old_cache(hours)]: the cutoff is printed with
    ['%Y-%m-%d %H:%M:%S'], that is cut to whole seconds, and compared with
    the [timestamp] column. *)
Definition cutoff_time (hours : Z) (now : Z) : Z := (now - hours * 3600000) `div` 1000.

Definition clear_old_cache (hours : Z) : M nat :=
  try_ (λ w, if db_readonly w then None
             else
               let cutoff := cutoff_time hours (clock w) in
               let kept := filter (λ r, ¬ c_timestamp r < cutoff) (request_cache w) in
               Some ((length (request_cache w) - length kept)%nat,
                     set_request_cache (λ _, kept) w))
       (λ cleared_count,
          do logging INFO (ClearedDbCache cleared_count) ;; ret cleared_count)%st
       (do logging ERROR ErrorClearingDbCache ;; ret 0%nat)%st.

(** [reset_visited_urls]: [self.conn] is looked up on the instance, then
    [DELETE FROM cache WHERE 1=1] runs on it. *)
Definition reset_visited_urls (self : gmap string pyval) : M bool :=
  try_ (λ w, conn ← self !! "conn"; delete_from "cache" w)
       (λ _, do logging INFO ResetVisited ;; ret true)%st
       (do logging ERROR ErrorResettingVisited ;; ret false)%st.

Definition clear_all_cache : M nat :=
  try_ (delete_from "request_cache")
       (λ cleared_count,
          do logging INFO (ClearedDbCache cleared_count) ;; ret cleared_count)%st
       (do logging ERROR ErrorClearingDbCache ;; ret 0%nat)%st.

End Database.

(** ** request_handler.py: class RequestHandler *)

Module RequestHandler.

(** The arguments of [Retry(...)] in [create_session]. *)
Record Retry := mkRetry {
  total : nat;
  backoff_factor : Z;
  status_forcelist : list Z;
  allowed_methods : list string
}.

(** What the network answers: the status code and the body,
    [response.text]. *)
Record Response := mkResponse { status_code : Z; text : string }.

(** What [session.get] comes back with: a response, or the exception raised
    when the retries are used up. *)
Inductive Outcome := Got (r : Response) | MaxRetryError.

(** [create_session]: the policy of the adapter mounted for both schemes. *)
Definition create_session : Retry :=
  mkRetry 3 1 [429; 500; 502; 503; 504] ["GET"].

Section handler.

(** [hashlib.md5(url.encode()).hexdigest()]. *)
Context (md5 : string → string).
(** The origin: what the [n]-th request sent receives, for its URL.  The
    headers ([get_random_headers]) and the timeout have no part in it. *)
Context (server : nat → string → Response).
(** The source of the [random] module. *)
Context (jitter : nat → Z).

(** Modelled from the spec: whether the retry policy of the HTTP adapter
    (class [Retry] of urllib3, which is not under src/) asks for one more
    attempt: only for a method of [allowed_methods] and a status of
    [status_forcelist]. *)
Definition is_retry (r : Retry) (method : string) (status : Z) : bool :=
  bool_decide (method ∈ allowed_methods r) &&
  bool_decide (status ∈ status_forcelist r).

(** Modelled from the spec: the sleep before retry number [k] (counted
    from 0) of the same adapter: exponential, starting at
    [backoff_factor] seconds. *)
Definition backoff_time (r : Retry) (k : nat) : Z :=
  1000 * backoff_factor r * 2 ^ Z.of_nat k.

(** Modelled from the spec: the retry loop of the same adapter.  [left]
    retries remain and [k] were made; each attempt is one request on the
    network. *)
Fixpoint send (r : Retry) (method url : string) (left k : nat) : M Outcome :=
  (n <- gets (λ w, length (requests w)) ;;
   do modify (set_requests (cons url)) ;;
   let response := server n url in
   if is_retry r method (status_code response) then
     match left with
     | O => ret MaxRetryError
     | S left' =>
         do sleep (backoff_time r k) ;;
         send r method url left' (S k)
     end
   else ret (Got response))%st.

(** [self.session.get(url, headers=..., timeout=15)]. *)
Definition session_get (url : string) : M Outcome :=
  send create_session "GET" url (total create_session) 0.

(** [response.raise_for_status()] raises on 4xx and 5xx. *)
Definition raise_for_status (status : Z) : bool :=
  bool_decide (400 ≤ status < 600).

(** [random.uniform(lo, hi)], in milliseconds. *)
Definition random_uniform (lo hi : Z) : M Z :=
  λ w, (lo + jitter (draws w) `mod` (hi - lo + 1), set_draws S w).

(** [get_cache_path]: the name of the file in the cache directory. *)
Definition get_cache_path (url : string) : string := md5 url +:+ ".html".

(** The second half of [get_cached_response]: the database cache. *)
Definition database_fallback (url : string) : M (option string) :=
  (result <- Database.get_cached_response (md5 url) ;;
   match result with
   | Some (response_data, timestamp) =>
       now <- gets clock ;;
       if bool_decide (now - timestamp * 1000 < 86400000) then
         do logging INFO (UsingDbCache url) ;;
         ret (Some response_data)
       else ret None
   | None => ret None
   end)%st.

Definition get_cached_response (url : string) : M (option string) :=
  (file <- gets (λ w, files w !! get_cache_path url) ;;
   match file with
   | Some f =>
       now <- gets clock ;;
       if bool_decide (now - f_mtime f < 86400000) then
         do logging INFO (UsingFileCache url) ;;
         match f_text f with
         | Some s => ret (Some s)
         | None =>
             do logging ERROR ErrorReadingCacheFile ;;
             database_fallback url
         end
       else database_fallback url
   | None => database_fallback url
   end)%st.

Definition save_to_cache (url content : string) : M unit :=
  (now <- gets clock ;;
   let timestamp := now `div` 1000 in
   do try_ (λ w, if fs_readonly w then None
                 else Some (tt, set_files
                                  (insert (get_cache_path url)
                                     (mkFile (Some content) (clock w))) w))
           (λ _, ret tt)
           (logging ERROR ErrorSavingFileCache) ;;
   Database.save_to_cache (md5 url) url content timestamp)%st.

Definition get_page_content (url : string) (visited_urls : gset string)
    : M (option string) :=
  (if bool_decide (url ∈ visited_urls) then
     do logging INFO (AlreadyProcessed url) ;;
     ret None
   else
     cached_content <- get_cached_response url ;;
     if truthy cached_content then ret cached_content
     else
       do logging INFO (FetchingURL url) ;;
       outcome <- session_get url ;;
       match outcome with
       | Got response =>
           if raise_for_status (status_code response) then
             do logging ERROR (ErrorFetching url) ;;
             ret None
           else
             do save_to_cache url (text response) ;;
             delay <- random_uniform 1500 3500 ;;
             do sleep delay ;;
             ret (Some (text response))
       | MaxRetryError =>
           do logging ERROR (ErrorFetching url) ;;
           ret None
       end)%st.

(** [clear_old_file_cache(days)]: [os.remove] raises on the first file to
    remove when the directory cannot be written; the loop is left and the
    count is the one reached. *)
Definition clear_old_file_cache (days : Z) : M nat :=
  (cleared_count <-
     try_ (λ w,
             let cutoff_time := clock w - days * 86400000 in
             let old := filter (λ kv : string * File, f_mtime kv.2 < cutoff_time)
                               (files w) in
             if fs_readonly w && negb (bool_decide (old = ∅)) then None
             else Some (size old,
                        set_files (filter (λ kv : string * File,
                                             ¬ f_mtime kv.2 < cutoff_time)) w))
          ret
          (do logging ERROR ErrorClearingFileCache ;; ret 0%nat) ;;
   do logging INFO (ClearedFileCache cleared_count) ;;
   ret cleared_count)%st.

End handler.

End RequestHandler.

(** ** scraper.py: class AINewsScraper *)

Module AINewsScraper.

(** A link as [ContentExtractor.extract_article_links] returns it: the
    dictionary [{'url': ..., 'title': ...}]. *)
Record Link := mkLink { l_url : string; l_title : string }.

(** How an iteration of the loop over the pages ends. *)
Inductive Flow := Next | Break.

(** [search_term.replace(' ', '%20')]. *)
Fixpoint replace_spaces (s : string) : string :=
  match s with
  | EmptyString => EmptyString
  | String c rest =>
      if Ascii.eqb c " "%char then "%20" +:+ replace_spaces rest
      else String c (replace_spaces rest)
  end.

Definition base_url : string := "https://www.khaleejtimes.com/search".

Definition search_term (use_ai_term : bool) : string :=
  if use_ai_term then "AI" else "artificial intelligence".

(** The URL of a page of the listing. *)
Definition page_url (use_ai_term : bool) (page : nat) : string :=
  if bool_decide (page = 1%nat) then
    base_url +:+ "?q=" +:+ replace_spaces (search_term use_ai_term)
  else
    base_url +:+ "?q=" +:+ replace_spaces (search_term use_ai_term)
             +:+ "&page=" +:+ pretty page.

Section scraper.

Context (md5 : string → string).
Context (server : nat → string → RequestHandler.Response).
Context (jitter : nat → Z).

(** The collaborator [ContentExtractor].  [extract_article_links] parses
    the page outside any [try], so it may raise: [None].
    [extract_article_data] catches what it raises and returns [None]
    then. *)
Context (extract_article_links : string → option (list Link)).
Context (extract_article_data : string → string → string → option Article).

(** [__init__]: the visited URLs start as the URLs of table
    [articles]. *)
Definition init : M unit :=
  (urls <- Database.get_existing_urls ;;
   modify (set_visited_urls (λ _, urls)))%st.

Definition scrape_article_content (url fallback_title : string)
    : M (option Article) :=
  (visited_urls <- gets visited_urls ;;
   html_content <- RequestHandler.get_page_content md5 server jitter
                     url visited_urls ;;
   match html_content with
   | Some html =>
       if bool_decide (html ≠ "") then
         do modify (set_visited_urls (union {[url]})) ;;
         ret (extract_article_data url html fallback_title)
       else ret None
   | None => ret None
   end)%st.

(** The loop over the links of a page.  It returns [processed_count] and
    [articles_data]; [total_scraped] is the length of the latter. *)
Fixpoint for_articles (articles : list Link) (max_articles_per_page : Z)
    (processed_count : nat) (articles_data : list Article)
    : M (nat * list Article) :=
  match articles with
  | [] => ret (processed_count, articles_data)
  | article :: rest =>
      if bool_decide (Z.of_nat processed_count >= max_articles_per_page) then
        ret (processed_count, articles_data)
      else
        (visited_urls <- gets visited_urls ;;
         if bool_decide (l_url article ∈ visited_urls) then
           for_articles rest max_articles_per_page processed_count articles_data
         else
           article_data <- scrape_article_content (l_url article) (l_title article) ;;
           match article_data with
           | Some data =>
               if bool_decide (data ≠ ∅) then
                 do logging INFO (SuccessfullyScraped (l_title article)) ;;
                 for_articles rest max_articles_per_page (S processed_count)
                   (articles_data ++ [data])
               else
                 for_articles rest max_articles_per_page processed_count
                   articles_data
           | None =>
               for_articles rest max_articles_per_page processed_count
                 articles_data
           end)%st
  end.

(** The body of the loop over the pages. *)
Definition scrape_page (use_ai_term : bool) (max_articles_per_page : Z)
    (page : nat) (articles_data : list Article) : M (Flow * list Article) :=
  (let url := page_url use_ai_term page in
   do logging INFO (ScrapingPage page url) ;;
   visited_urls <- gets visited_urls ;;
   html_content <- RequestHandler.get_page_content md5 server jitter
                     url visited_urls ;;
   match html_content with
   | Some html =>
       if bool_decide (html ≠ "") then
         match extract_article_links html with
         | None =>
             do logging ERROR (ErrorProcessingPage page) ;;
             ret (Next, articles_data)
         | Some [] =>
             do logging WARNING (NoArticlesFound page) ;;
             ret (Next, articles_data)
         | Some articles =>
             r <- for_articles articles max_articles_per_page 0%nat articles_data ;;
             if bool_decide (r.1 = 0%nat) then
               do logging INFO (NoNewArticles page) ;;
               ret (Break, r.2)
             else
               delay <- RequestHandler.random_uniform jitter 3000 5000 ;;
               do sleep delay ;;
               ret (Next, r.2)
         end
       else ret (Next, articles_data)
   | None => ret (Next, articles_data)
   end)%st.

(** [for page in range(1, pages + 1)], from page [page] on. *)
Fixpoint for_pages (use_ai_term : bool) (max_articles_per_page : Z)
    (pages : list nat) (articles_data : list Article) : M (list Article) :=
  match pages with
  | [] => ret articles_data
  | page :: rest =>
      (r <- scrape_page use_ai_term max_articles_per_page page articles_data ;;
       match r.1 with
       | Next => for_pages use_ai_term max_articles_per_page rest r.2
       | Break => ret r.2
       end)%st
  end.

Definition scrape_khaleejtimes_ai (pages : nat) (use_ai_term : bool)
    (max_articles_per_page : Z) : M nat :=
  (articles_data <- for_pages use_ai_term max_articles_per_page
                      (seq 1 pages) [] ;;
   Database.save_articles articles_data)%st.

(** [clear_old_cache(hours)]: [hours] is passed on to both sweeps. *)
Definition clear_old_cache (hours : Z) : M nat :=
  (file_cleared <- RequestHandler.clear_old_file_cache hours ;;
   db_cleared <- Database.clear_old_cache hours ;;
   let total_cleared := (file_cleared + db_cleared)%nat in
   do logging INFO (ClearedTotal total_cleared) ;;
   ret total_cleared)%st.

End scraper.

End AINewsScraper.


(** * Vocabulary of the statements *)

(** The staleness bound of [get_cached_response]: 24 hours. *)
Definition TTL : Z := 86400000.

(** How often a record occurs in the log. *)
Definition count_log (e : Level * Msg) (l : list (Level * Msg)) : nat :=
  length (filter (λ x, x = e) l).

(** The rows of a batch the store takes: the statement does not raise. *)
Definition accepted (ro : bool) (article : Article) : Prop :=
  ro = false ∧ is_Some (Database.insert_values article).

#[global] Instance accepted_dec ro article : Decision (accepted ro article).
Proof. unfold accepted. apply _. Defined.

(** What one iteration of the loop of [save_articles] does to the table. *)
Definition save_step (ro : bool) (tbl : list ArticleRow) (article : Article)
    : list ArticleRow :=
  if ro then tbl
  else match Database.insert_values article with
       | Some new => (Database.upsert new tbl).1
       | None => tbl
       end.

(** The row [old] holds the key of the values [new]. *)
Definition in_conflict (new old : ArticleRow) : Prop :=
  is_Some (a_url new) ∧ a_url old = a_url new.

(** The records a cache lookup may log. *)
Definition lookup_msg (e : Level * Msg) : Prop :=
  match e.2 with
  | UsingFileCache _ | ErrorReadingCacheFile | UsingDbCache _ => True
  | _ => False
  end.

(** The state after [j] retries, with the sleeps [ns]: only the clock, the
    requests and the sleeps have changed. *)
Definition sent (url : string) (j : nat) (ns : list Z) (w : World) : World :=
  set_naps (app ns)
    (set_requests (app (replicate (S j) url))
       (set_clock (Z.add (foldr Z.add 0 ns)) w)).

(** From [w] to [w'] no URL visited in [w] was requested, and the visited
    URLs only grew. *)
Definition dedup (w w' : World) : Prop :=
  visited_urls w ⊆ visited_urls w' ∧
  ∃ new, requests w' = new ++ requests w ∧ ∀ u, u ∈ new → u ∉ visited_urls w.

Section tiers.

Context (md5 : string → string).

(** The fresh entry of each tier of the cache, if any. *)
Definition fresh_file (url : string) (w : World) : option string :=
  f ← files w !! RequestHandler.get_cache_path md5 url;
  if bool_decide (clock w - f_mtime f < TTL) then f_text f else None.

Definition fresh_row (url : string) (w : World) : option string :=
  row ← Database.select_by_hash (md5 url) (request_cache w);
  if bool_decide (clock w - c_timestamp row * 1000 < TTL)
  then Some (c_response row) else None.

End tiers.

Ltac run :=
  unfold bind, logging, sleep, gets, modify, ret, try_ in *; simpl in *.

Ltac step :=
  unfold bind, logging, sleep, gets, modify, ret, try_ in *;
  cbv beta iota in *.


(** * More of the sources *)

(** ** main.py: the endpoint [/clear_all_cache] *)

Module Api.

(** What the endpoint answers: the body of the 200 response, which holds
    the count, or the status of the [HTTPException] it raises. *)
Inductive Answer := Cleared (cleared_count : nat) | HTTPException (status_code : Z).

(** The body of the [try]: [None] when it raises.  [HTTPException(404)] is
    raised inside the [try], after the [DELETE] is committed and logged, so
    the state it leaves is kept. *)
Definition clear_all_cache_try : M (option Answer) :=
  λ w, match Database.delete_from "request_cache" w with
       | Some (cleared_count, w') =>
           (do logging INFO (ClearedDbCache cleared_count) ;;
            if bool_decide (cleared_count = 0%nat) then ret None
            else ret (Some (Cleared cleared_count)))%st w'
       | None => (None, w)
       end.

(** [except Exception] catches what the body raises, the [HTTPException]
    included, and raises a 500. *)
Definition clear_all_cache : M Answer :=
  (r <- clear_all_cache_try ;;
   match r with
   | Some answer => ret answer
   | None =>
       do logging ERROR ErrorClearingDbCache ;;
       ret (HTTPException 500)
   end)%st.

End Api.

(** ** db/reset_db.py *)

Module ResetDb.

(** The script logs on its own. *)
Inductive ResetMsg :=
  | FileMissing
  | FileDeleted
  | ClearedTable (table_name : string)
  | AllTablesCleared
  | ErrorResetting.

(** The database file: [None] when [os.path.exists(db_path)] is false,
    else the tables in it; whether [os.remove] succeeds on it; and what
    the script has logged, newest first. *)
Record Disk := mkDisk {
  db_file : option World;
  removable : bool;
  output : list (Level * ResetMsg)
}.

Definition note (l : Level) (m : ResetMsg) (d : Disk) : Disk :=
  mkDisk (db_file d) (removable d) ((l, m) :: output d).

(** The tables [sqlite_master] lists for the schema of
    [Database.setup_database], none of which is [sqlite_sequence]. *)
Definition clear_tables (w : World) : option World :=
  w1 ← snd <$> Database.delete_from "articles" w;
  snd <$> Database.delete_from "request_cache" w1.

(** [reset_database(db_path, mode)]: any [mode] but ["delete"] clears. *)
Definition reset_database (mode : string) (d : Disk) : bool * Disk :=
  match db_file d with
  | None => (false, note WARNING FileMissing d)
  | Some w =>
      if bool_decide (mode = "delete") then
        if removable d then
          (true, note INFO FileDeleted (mkDisk None (removable d) (output d)))
        else (false, note ERROR ErrorResetting d)
      else
        match clear_tables w with
        | Some w' =>
            (true,
             note INFO AllTablesCleared
               (note INFO (ClearedTable "request_cache")
                  (note INFO (ClearedTable "articles")
                     (mkDisk (Some w') (removable d) (output d)))))
        | None => (false, note ERROR ErrorResetting d)
        end
  end.

End ResetDb.

(** * Vocabulary of the further statements *)

(** The keys of table [request_cache] are unique. *)
Definition cache_keys_unique (tbl : list CacheRow) : Prop :=
  NoDup (c_url_hash <$> tbl) ∧ NoDup (c_url <$> tbl).

(** The article holds a [str] under the key. *)
Definition str_field (article : Article) (key : string) : Prop :=
  ∃ s, article !! key = Some (PyStr s).

(** An article as [extract_article_data] builds it: the six fields of the
    [INSERT] are strings, and [keywords] is a string, [None] or missing. *)
Definition well_formed (article : Article) : Prop :=
  str_field article "title" ∧ str_field article "content" ∧
  str_field article "url" ∧ str_field article "published_date" ∧
  str_field article "source" ∧ str_field article "scrape_date" ∧
  article !! "keywords" ≠ Some PyObj.

(** Two states that differ by their logs only. *)
Definition same_but_log (w w' : World) : Prop :=
  ∃ l, w' = set_log (app l) w.


(** * Concrete runs *)

Module Scenario.

Definition md5 (s : string) : string := "md5-" +:+ s.

(** An empty store and cache directory, at some instant. *)
Definition w0 : World :=
  mkWorld 1700000000000 [] [] false ∅ false [] [] 0 ∅ [].

Definition jitter (n : nat) : Z := Z.of_nat n * 7919.

Definition a1 : string := "https://www.khaleejtimes.com/article/a1".
Definition a2 : string := "https://www.khaleejtimes.com/article/a2".
Definition gone : string := "https://www.khaleejtimes.com/article/gone".

(** A site with three pages of results; page 2 is a page with no link in
    it, [a2] has an empty body and [gone] does not exist. *)
Definition site (n : nat) (u : string) : RequestHandler.Response :=
  if bool_decide (u = AINewsScraper.page_url true 1) then
    RequestHandler.mkResponse 200 "page1"
  else if bool_decide (u = AINewsScraper.page_url true 2) then
    RequestHandler.mkResponse 200 "page2"
  else if bool_decide (u = AINewsScraper.page_url true 3) then
    RequestHandler.mkResponse 200 "page3"
  else if bool_decide (u = a1) then RequestHandler.mkResponse 200 "text of a1"
  else if bool_decide (u = a2) then RequestHandler.mkResponse 200 ""
  else RequestHandler.mkResponse 404 "not found".

(** A site that is down. *)
Definition busy (n : nat) (u : string) : RequestHandler.Response :=
  RequestHandler.mkResponse 503 "busy".

Definition extract_article_links (html : string) : option (list AINewsScraper.Link) :=
  if bool_decide (html = "page1") then
    Some [AINewsScraper.mkLink a1 "title 1"; AINewsScraper.mkLink a2 "title 2"]
  else if bool_decide (html = "page2") then Some []
  else if bool_decide (html = "page3") then Some [AINewsScraper.mkLink a1 "title 1"]
  else None.

Definition article (title content url : string) : Article :=
  <["title" := PyStr title]> (<["content" := PyStr content]>
  (<["url" := PyStr url]> (<["published_date" := PyStr "2025-01-01"]>
  (<["source" := PyStr "Khaleej Times"]>
  (<["scrape_date" := PyStr "2025-01-02 10:00:00"]>
  (<["keywords" := PyStr "ai,news"]> ∅)))))).

Definition extract_article_data (url html fallback_title : string) : option Article :=
  Some (article fallback_title html url).

(** The run of [scrape_khaleejtimes_ai] on this site. *)
Definition scrape (pages : nat) : M nat :=
  AINewsScraper.scrape_khaleejtimes_ai md5 site jitter extract_article_links
    extract_article_data pages true 10.

(** The store after a first run over page 1: [a1] is saved and visited. *)
Definition w1 : World := (scrape 1 w0).2.

(** The same site read by an extractor that finds no link on page 1, and
    by one that finds [a1] on every page. *)
Definition links_later (html : string) : option (list AINewsScraper.Link) :=
  if bool_decide (html = "page1") then Some []
  else if bool_decide (html = "page2") then Some [AINewsScraper.mkLink a1 "title 1"]
  else None.

Definition links_repeat (html : string) : option (list AINewsScraper.Link) :=
  Some [AINewsScraper.mkLink a1 "title 1"].

(** A store with one article, and a batch for it: an update of that
    article, a new one, a record without title, a record whose title is
    [None], and the new one again. *)
Definition stored : World :=
  set_articles (λ _, [mkArticleRow 7 "old title" (Some "old text") (Some a1)
                        None None None None]) w0.

Definition batch : list Article :=
  [article "title 1" "text 1" a1;
   article "title 2" "text 2" a2;
   delete "title" (article "title 3" "text 3" gone);
   <["title" := PyNone]> (article "title 4" "text 4" gone);
   article "title 5" "text 5" a2].

(** A cache whose file for [a1] is exactly 24 hours old and whose row for
    it is one hour old. *)
Definition tiers : World :=
  set_files (insert (RequestHandler.get_cache_path md5 a1)
               (mkFile (Some "stale text") (1700000000000 - 86400000)))
    (set_request_cache
       (λ _, [mkCacheRow (md5 a1) a1 "fresh text" None (1700000000 - 3600)]) w0).

(** A cache with rows and files of several ages: two hours, two days. *)
Definition aged : World :=
  set_files (λ _, <["two-hours.html" := mkFile (Some "x") (1700000000000 - 7200000)]>
                  (<["two-days.html" := mkFile (Some "y") (1700000000000 - 172800000)]> ∅))
    (set_request_cache
       (λ _, [mkCacheRow "h1" "u1" "r1" None (1700000000 - 7200);
              mkCacheRow "h2" "u2" "r2" None (1700000000 - 3600);
              mkCacheRow "h3" "u3" "r3" None (1700000000 - 60)]) w0).

End Scenario.


(** * More concrete runs *)

Module MoreScenario.
Import Scenario.

(** The cache [aged] on a store and a directory that cannot be written. *)
Definition locked : World :=
  mkWorld (clock aged) (articles aged) (request_cache aged) true
    (files aged) true (requests aged) (naps aged) (draws aged)
    (visited_urls aged) (log aged).


(** Two articles as the extractor builds them, the second without its
    [keywords]. *)
Definition clean_batch : list Article :=
  [article "title 1" "text 1" a1;
   delete "keywords" (article "title 2" "text 2" a2)].

(** An extractor that makes nothing of any page. *)
Definition no_data (url html fallback_title : string) : option Article := None.

(** The database file of the store [aged], which can be removed. *)
Definition disk : ResetDb.Disk := ResetDb.mkDisk (Some aged) true [].

End MoreScenario.


(** * General lemmas *)

Lemma world_eta w :
  mkWorld (clock w) (articles w) (request_cache w) (db_readonly w) (files w)
    (fs_readonly w) (requests w) (naps w) (draws w) (visited_urls w) (log w) = w.
Proof. by destruct w. Qed.

(** Two states with the same fields are the same state. *)
Lemma world_ext w w' :
  clock w = clock w' → articles w = articles w' →
  request_cache w = request_cache w' → db_readonly w = db_readonly w' →
  files w = files w' → fs_readonly w = fs_readonly w' →
  requests w = requests w' → naps w = naps w' → draws w = draws w' →
  visited_urls w = visited_urls w' → log w = log w' → w = w'.
Proof. destruct w, w'; simpl; by intros -> -> -> -> -> -> -> -> -> -> ->. Qed.

Lemma replicate_app_cons {A} (k : nat) (x : A) l :
  replicate k x ++ x :: l = x :: replicate k x ++ l.
Proof. induction k as [|k IH]; simpl; [done|]. by rewrite IH. Qed.

Lemma length_filter_split {A} (P : A → Prop) `{∀ x, Decision (P x)} (l : list A) :
  (length (filter (λ x, ¬ P x) l) + length (filter P l) = length l)%nat.
Proof.
  induction l as [|x l IH]; [done|].
  rewrite !filter_cons. destruct (decide (P x)).
  - rewrite decide_False by tauto. simpl. lia.
  - rewrite decide_True by tauto. simpl. lia.
Qed.

Lemma foldr_add_init (l : list Z) (a : Z) :
  foldr Z.add a l = foldr Z.add 0 l + a.
Proof. induction l as [|d l IH]; simpl; lia. Qed.

(** * Facts about database.py *)

Module DatabaseFacts.
Import Database.

Lemma upsert_rowcount new tbl : (upsert new tbl).2 = 1.
Proof. unfold upsert. by destruct (on_conflict_update new tbl). Qed.

Lemma save_article_eq article n w :
  save_article article n w =
  if decide (accepted (db_readonly w) article)
  then (S n, set_articles (λ t, save_step (db_readonly w) t article) w)
  else (n, set_log (cons (ERROR, ErrorSavingArticle)) w).
Proof.
  unfold save_article, try_, execute_upsert, save_step.
  destruct (decide (accepted (db_readonly w) article)) as [[Hro [new Hv]]|Hn].
  - rewrite Hro, Hv; simpl. unfold set_articles; simpl.
    pose proof (upsert_rowcount new (articles w)) as Hrc.
    destruct (upsert new (articles w)) as [tbl rc]; simpl in *; subst rc.
    done.
  - destruct (db_readonly w) eqn:Hro; [done|].
    destruct (insert_values article) as [new|] eqn:Hv; [|done].
    destruct Hn. split; [done | by eexists].
Qed.

Lemma save_step_rejected ro tbl article :
  ¬ accepted ro article → save_step ro tbl article = tbl.
Proof.
  unfold accepted, save_step. intros Hn.
  destruct ro; [done|].
  destruct (insert_values article); [|done].
  destruct Hn; eauto.
Qed.

Lemma save_loop_eq arts : ∀ n w,
  save_loop arts n w =
  ((n + length (filter (accepted (db_readonly w)) arts))%nat,
   set_log (app (replicate (length (filter (λ a, ¬ accepted (db_readonly w) a) arts))
                           (ERROR, ErrorSavingArticle)))
     (set_articles (λ t, foldl (save_step (db_readonly w)) t arts) w)).
Proof.
  induction arts as [|a arts IH]; intros n w; simpl.
  - unfold ret, set_log, set_articles; simpl. rewrite world_eta. f_equal; lia.
  - unfold bind. rewrite save_article_eq.
    rewrite filter_cons. rewrite (filter_cons (λ a, ¬ accepted (db_readonly w) a)).
    destruct (decide (accepted (db_readonly w) a)) as [Ha|Ha].
    + rewrite decide_False by tauto. rewrite IH. simpl.
      f_equal; lia.
    + rewrite decide_True by tauto. rewrite IH. simpl.
      unfold set_log, set_articles; simpl.
      rewrite save_step_rejected by done.
      by rewrite replicate_app_cons.
Qed.

(** *** The upsert on the table *)

Lemma on_conflict_update_None new tbl :
  on_conflict_update new tbl = None →
  ∀ old, old ∈ tbl → ¬ in_conflict new old.
Proof.
  induction tbl as [|r tbl IH]; simpl; intros Hu old Hin.
  - by apply elem_of_nil in Hin.
  - case_bool_decide as Hc; [done|].
    destruct (on_conflict_update new tbl); [done|].
    apply elem_of_cons in Hin as [->|Hin]; [done | by apply IH].
Qed.

Lemma on_conflict_update_Some new tbl tbl' :
  on_conflict_update new tbl = Some tbl' →
  ∃ l1 old l2,
    tbl = l1 ++ old :: l2 ∧ tbl' = l1 ++ with_id (a_id old) new :: l2 ∧
    in_conflict new old.
Proof.
  revert tbl'. induction tbl as [|r tbl IH]; simpl; intros tbl' Hu; [done|].
  case_bool_decide as Hc.
  - injection Hu as <-. by exists [], r, tbl.
  - destruct (on_conflict_update new tbl) as [t|]; [|done].
    injection Hu as <-.
    destruct (IH t eq_refl) as (l1 & old & l2 & -> & -> & Hold).
    by exists (r :: l1), old, l2.
Qed.

Lemma a_url_with_id i r : a_url (with_id i r) = a_url r.
Proof. done. Qed.

Lemma a_id_with_id i r : a_id (with_id i r) = i.
Proof. done. Qed.

Lemma with_id_with_id i j r : with_id i (with_id j r) = with_id i r.
Proof. done. Qed.

(** In a table with unique keys, the key finds the row. *)
Lemma unique_key_row tbl r1 r2 u :
  NoDup (omap a_url tbl) → r1 ∈ tbl → r2 ∈ tbl →
  a_url r1 = Some u → a_url r2 = Some u → r1 = r2.
Proof.
  induction tbl as [|r tbl IH]; intros Hnd H1 H2 Hu1 Hu2.
  - by apply elem_of_nil in H1.
  - assert (Hk : ∀ x, x ∈ tbl → a_url x = Some u → u ∈ omap a_url tbl).
    { intros x Hx Hxu. apply list_elem_of_omap. eauto. }
    simpl in Hnd.
    apply elem_of_cons in H1 as [->|H1]; apply elem_of_cons in H2 as [->|H2];
      try done.
    + rewrite Hu1 in Hnd. apply NoDup_cons in Hnd as [Hnin _].
      destruct Hnin; eauto.
    + rewrite Hu2 in Hnd. apply NoDup_cons in Hnd as [Hnin _].
      destruct Hnin; eauto.
    + apply IH; try done. destruct (a_url r); [by apply NoDup_cons in Hnd as [_ ?]|done].
Qed.

Lemma upsert_unique new tbl :
  NoDup (omap a_url tbl) → NoDup (omap a_url (upsert new tbl).1).
Proof.
  intros Hnd. unfold upsert.
  destruct (on_conflict_update new tbl) as [tbl'|] eqn:Hu; simpl.
  - apply on_conflict_update_Some in Hu as (l1 & old & l2 & -> & -> & _ & Hurl).
    rewrite omap_app in *. simpl in *. by rewrite Hurl in Hnd.
  - rewrite omap_app. simpl.
    destruct (a_url new) as [u|] eqn:Hurl; simpl; [|by rewrite app_nil_r].
    apply NoDup_app. split; [done|]. split; [|apply NoDup_singleton].
    intros x Hx Hx'. apply list_elem_of_singleton in Hx' as ->.
    apply list_elem_of_omap in Hx as (old & Hold & Hou).
    eapply on_conflict_update_None; [done.. |].
    split; [by rewrite Hurl | by rewrite Hurl].
Qed.

(** The row of the key after the statement: it holds the new values, and
    the [id] of the row that held the key before, if there was one. *)
Lemma upsert_stored new tbl u :
  NoDup (omap a_url tbl) → a_url new = Some u →
  ∃ row, row ∈ (upsert new tbl).1 ∧ row = with_id (a_id row) new ∧
         ∀ old, old ∈ tbl → a_url old = Some u → a_id row = a_id old.
Proof.
  intros Hnd Hurl. unfold upsert.
  destruct (on_conflict_update new tbl) as [tbl'|] eqn:Hu; simpl.
  - apply on_conflict_update_Some in Hu as (l1 & old & l2 & -> & -> & _ & Hold).
    exists (with_id (a_id old) new). split; [set_solver|]. split; [done|].
    intros old' Hin Hu'. simpl. f_equal.
    apply (unique_key_row _ _ _ u Hnd); [set_solver | done | congruence | done].
  - exists (with_id (next_rowid tbl) new). split; [set_solver|]. split; [done|].
    intros old Hin Hou. exfalso.
    eapply on_conflict_update_None; [done.. |].
    split; [by rewrite Hurl | congruence].
Qed.

(** A row whose key is not the new one is left as it is. *)
Lemma upsert_other new tbl old :
  old ∈ tbl → (∀ u, a_url old = Some u → a_url new ≠ Some u) →
  old ∈ (upsert new tbl).1.
Proof.
  intros Hin Hne. unfold upsert.
  destruct (on_conflict_update new tbl) as [tbl'|] eqn:Hu; simpl; [|set_solver].
  apply on_conflict_update_Some in Hu as (l1 & old' & l2 & -> & -> & [[u Hu] Hold]).
  assert (old ≠ old') by (intros ->; apply (Hne u); congruence).
  set_solver.
Qed.

(** Every row keeps its [id] and its key. *)
Lemma upsert_keeps new tbl old :
  old ∈ tbl →
  ∃ old', old' ∈ (upsert new tbl).1 ∧ a_id old' = a_id old ∧ a_url old' = a_url old.
Proof.
  intros Hin. unfold upsert.
  destruct (on_conflict_update new tbl) as [tbl'|] eqn:Hu; simpl.
  - apply on_conflict_update_Some in Hu as (l1 & old' & l2 & -> & -> & [_ Hold]).
    destruct (decide (old = old')) as [->|Hne].
    + exists (with_id (a_id old') new). split; [set_solver|]. done.
    + exists old. split; [set_solver | done].
  - exists old. split; [set_solver | done].
Qed.

(** *** The loop on the table *)

Lemma save_step_unique ro tbl article :
  NoDup (omap a_url tbl) → NoDup (omap a_url (save_step ro tbl article)).
Proof.
  intros Hnd. unfold save_step. destruct ro; [done|].
  destruct (insert_values article); [by apply upsert_unique | done].
Qed.

Lemma save_step_other ro tbl article old :
  old ∈ tbl →
  (∀ new u, insert_values article = Some new → a_url old = Some u →
            a_url new ≠ Some u) →
  old ∈ save_step ro tbl article.
Proof.
  intros Hin Hne. unfold save_step. destruct ro; [done|].
  destruct (insert_values article) as [new|] eqn:Hv; [|done].
  apply upsert_other; eauto.
Qed.

Lemma save_step_keeps ro tbl article old :
  old ∈ tbl →
  ∃ old', old' ∈ save_step ro tbl article ∧
          a_id old' = a_id old ∧ a_url old' = a_url old.
Proof.
  intros Hin. unfold save_step. destruct ro; [by exists old|].
  destruct (insert_values article); [by apply upsert_keeps | by exists old].
Qed.

Lemma save_fold_unique ro arts : ∀ tbl,
  NoDup (omap a_url tbl) → NoDup (omap a_url (foldl (save_step ro) tbl arts)).
Proof.
  induction arts as [|a arts IH]; simpl; intros tbl Hnd; [done|].
  by apply IH, save_step_unique.
Qed.

Lemma save_fold_other ro arts : ∀ tbl old,
  old ∈ tbl →
  (∀ article new u, article ∈ arts → insert_values article = Some new →
                    a_url old = Some u → a_url new ≠ Some u) →
  old ∈ foldl (save_step ro) tbl arts.
Proof.
  induction arts as [|a arts IH]; simpl; intros tbl old Hin Hne; [done|].
  apply IH.
  - apply save_step_other; [done|]. intros new u. apply Hne. by left.
  - intros article new u Ha. apply Hne. by right.
Qed.

Lemma save_fold_keeps ro arts : ∀ tbl old,
  old ∈ tbl →
  ∃ old', old' ∈ foldl (save_step ro) tbl arts ∧
          a_id old' = a_id old ∧ a_url old' = a_url old.
Proof.
  induction arts as [|a arts IH]; simpl; intros tbl old Hin; [by exists old|].
  destruct (save_step_keeps ro tbl a old Hin) as (old1 & Hin1 & Hid1 & Hu1).
  destruct (IH _ old1 Hin1) as (old2 & Hin2 & Hid2 & Hu2).
  exists old2. split; [done|]. split; congruence.
Qed.

Lemma save_fold_stored arts : ∀ tbl i article new u,
  NoDup (omap a_url tbl) →
  arts !! i = Some article → insert_values article = Some new →
  a_url new = Some u →
  (∀ j article' new', (i < j)%nat → arts !! j = Some article' →
     insert_values article' = Some new' → a_url new' ≠ Some u) →
  ∃ row, row ∈ foldl (save_step false) tbl arts ∧
         row = with_id (a_id row) new ∧
         ∀ old, old ∈ tbl → a_url old = Some u → a_id row = a_id old.
Proof.
  induction arts as [|a arts IH]; intros tbl i article new u Hnd Hi Hv Hu Hlast;
    [done|].
  destruct i as [|i]; simpl in *.
  - injection Hi as ->.
    rewrite Hv.
    destruct (upsert_stored new tbl u Hnd Hu) as (row & Hin & Hrow & Hid).
    exists row. split; [|split; assumption].
    apply save_fold_other; [done|].
    intros article' new' u' Hin' Hv' Hu'.
    apply list_elem_of_lookup in Hin' as [j Hj].
    rewrite Hrow in Hu'. simpl in Hu'. rewrite Hu in Hu'. injection Hu' as <-.
    apply (Hlast (S j) article' new'); [lia | done | done].
  - destruct (IH (save_step false tbl a) i article new u) as (row & Hin & Hrow & Hid);
      [by apply save_step_unique | done.. | |].
    { intros j article' new' Hj. apply (Hlast (S j)). lia. }
    exists row. split; [done|]. split; [done|].
    intros old Hold Hou.
    destruct (save_step_keeps false tbl a old Hold) as (old1 & Hin1 & Hid1 & Hu1).
    rewrite <- Hid1. apply Hid; congruence.
Qed.

Lemma count_log_replicate e k l :
  count_log e (replicate k e ++ l) = (k + count_log e l)%nat.
Proof.
  unfold count_log. induction k as [|k IH]; simpl; [done|].
  rewrite filter_cons_True by done. simpl. by rewrite IH.
Qed.

(** Claim C3 (upsert invariant).  On a table whose keys are unique, as the
    schema's [url TEXT UNIQUE] keeps them, [save_articles] leaves at most
    one row per key; the values of the last record of the batch that the
    store takes for a key are in the table, in the row that held the key
    before (same [id]) when there was one; a record the store rejects is
    skipped with one error in the log and the loop goes on; the rows whose
    key is not in the batch are left as they are; and the result counts
    the records taken. *)
Theorem save_articles_upsert (arts : list Article) (w : World) :
  NoDup (omap a_url (articles w)) →
  ∀ saved_count w', save_articles arts w = (saved_count, w') →
    NoDup (omap a_url (articles w')) ∧
    saved_count = length (filter (accepted (db_readonly w)) arts) ∧
    count_log (ERROR, ErrorSavingArticle) (log w') =
      (length (filter (λ a, ¬ accepted (db_readonly w) a) arts) +
       count_log (ERROR, ErrorSavingArticle) (log w))%nat ∧
    (∀ i article new u,
       arts !! i = Some article → db_readonly w = false →
       insert_values article = Some new → a_url new = Some u →
       (∀ j article' new', (i < j)%nat → arts !! j = Some article' →
          insert_values article' = Some new' → a_url new' ≠ Some u) →
       ∃ row, row ∈ articles w' ∧ row = with_id (a_id row) new ∧
              ∀ old, old ∈ articles w → a_url old = Some u →
                     a_id row = a_id old) ∧
    (∀ old, old ∈ articles w →
       (∀ article new u, article ∈ arts → insert_values article = Some new →
          a_url old = Some u → a_url new ≠ Some u) →
       old ∈ articles w').
Proof.
  intros Hnd saved_count w' Hsave.
  assert (Hloop : ∃ l, articles w' = foldl (save_step (db_readonly w)) (articles w) arts ∧
            saved_count = length (filter (accepted (db_readonly w)) arts) ∧
            count_log (ERROR, ErrorSavingArticle) (log w') =
              (length (filter (λ a, ¬ accepted (db_readonly w) a) arts) +
               count_log (ERROR, ErrorSavingArticle) (log w))%nat ∧ l = arts).
  { exists arts. destruct arts as [|a arts].
    - injection Hsave as <- <-. done.
    - unfold save_articles, bind in Hsave. rewrite save_loop_eq in Hsave.
      injection Hsave as <- <-. simpl articles. simpl log.
      split; [done|]. split; [done|]. split; [|done].
      unfold count_log at 1. rewrite filter_cons_False by done.
      apply count_log_replicate. }
  destruct Hloop as (_ & Htbl & Hcount & Hlog & _).
  rewrite Htbl. split; [by apply save_fold_unique|].
  split; [done|]. split; [done|]. split.
  - intros i article new u Hi Hro. rewrite Hro. by apply save_fold_stored.
  - intros old. apply save_fold_other.
Qed.

(** Claim C8 (eviction correctness).  When the [DELETE] of
    [Database.clear_old_cache] runs, every row whose timestamp is before
    the cutoff is gone from [request_cache], every row whose timestamp is
    after it is still there, and the result is the number of rows
    removed. *)
Theorem clear_old_cache_evicts (hours : Z) (w : World) :
  db_readonly w = false →
  ∀ cleared_count w', clear_old_cache hours w = (cleared_count, w') →
    let cutoff := cutoff_time hours (clock w) in
    (∀ r, r ∈ request_cache w → c_timestamp r < cutoff → r ∉ request_cache w') ∧
    (∀ r, r ∈ request_cache w → cutoff < c_timestamp r → r ∈ request_cache w') ∧
    cleared_count = length (filter (λ r, c_timestamp r < cutoff) (request_cache w)) ∧
    (length (request_cache w') + cleared_count = length (request_cache w))%nat.
Proof.
  intros Hro n w' Hclear cutoff.
  unfold clear_old_cache, try_ in Hclear. rewrite Hro in Hclear.
  injection Hclear as <- <-. simpl request_cache. fold cutoff.
  pose proof (length_filter_split (λ r, c_timestamp r < cutoff) (request_cache w))
    as Hsplit.
  split; [|split; [|split]].
  - intros r _ Hold Hin. apply list_elem_of_filter in Hin as [Hnew _]. lia.
  - intros r Hin Hnew. apply list_elem_of_filter. split; [lia | done].
  - lia.
  - lia.
Qed.

(** Claim C9 (reset inconsistency).  [cache] is no table of the schema and
    [__init__] leaves no attribute [conn]; whatever the instance and the
    state, [reset_visited_urls] logs an error, returns [False] and leaves
    [articles] and [request_cache] as they are. *)
Theorem reset_visited_urls_fails (db_path : string) (self : gmap string pyval) (w : World) :
  ("cache" ∉ schema_tables) ∧
  init db_path !! "conn" = None ∧
  reset_visited_urls self w =
    (false, set_log (cons (ERROR, ErrorResettingVisited)) w) ∧
  articles (reset_visited_urls self w).2 = articles w ∧
  request_cache (reset_visited_urls self w).2 = request_cache w.
Proof.
  assert (Hdel : delete_from "cache" w = None).
  { unfold delete_from. by destruct (db_readonly w). }
  assert (Heq : reset_visited_urls self w =
                (false, set_log (cons (ERROR, ErrorResettingVisited)) w)).
  { unfold reset_visited_urls, try_. destruct (self !! "conn"); simpl; by rewrite ?Hdel. }
  split; [|split; [done|]].
  - unfold schema_tables. intros Hin.
    apply elem_of_cons in Hin as [?|Hin]; [done|].
    apply elem_of_cons in Hin as [?|Hin]; [done|].
    by apply elem_of_nil in Hin.
  - by rewrite Heq.
Qed.

End DatabaseFacts.

(** * Facts about request_handler.py *)

Module RequestHandlerFacts.
Import RequestHandler.

Section cache.
Context (md5 : string → string).

Lemma database_fallback_result url w :
  (database_fallback md5 url w).1 = fresh_row md5 url w.
Proof.
  unfold database_fallback, Database.get_cached_response, fresh_row, TTL. run.
  destruct (Database.select_by_hash (md5 url) (request_cache w)) as [row|]; simpl; [|done].
  by case_bool_decide.
Qed.

Lemma database_fallback_world url w :
  ∃ l, (database_fallback md5 url w).2 = set_log (app l) w ∧ Forall lookup_msg l.
Proof.
  unfold database_fallback, Database.get_cached_response. run.
  destruct (Database.select_by_hash (md5 url) (request_cache w)) as [row|]; simpl.
  - case_bool_decide; simpl.
    + exists [(INFO, UsingDbCache url)]. split; [done|]. by repeat constructor.
    + exists []. split; [by destruct w | constructor].
  - exists []. split; [by destruct w | constructor].
Qed.

Lemma get_cached_response_result url w :
  (get_cached_response md5 url w).1 =
  match fresh_file md5 url w with
  | Some s => Some s
  | None => fresh_row md5 url w
  end.
Proof.
  unfold get_cached_response, fresh_file, TTL. run.
  destruct (files w !! get_cache_path md5 url) as [f|]; simpl;
    [|apply database_fallback_result].
  case_bool_decide; simpl; [|apply database_fallback_result].
  destruct (f_text f); simpl; [done|].
  rewrite database_fallback_result. unfold fresh_row. done.
Qed.

Lemma get_cached_response_world url w :
  ∃ l, (get_cached_response md5 url w).2 = set_log (app l) w ∧ Forall lookup_msg l.
Proof.
  assert (Hcomp : ∀ l0, Forall lookup_msg l0 →
            ∃ l, (database_fallback md5 url (set_log (app l0) w)).2 = set_log (app l) w ∧
                 Forall lookup_msg l).
  { intros l0 Hl0.
    destruct (database_fallback_world url (set_log (app l0) w)) as (l & -> & Hl).
    exists (l ++ l0). split; [|by apply Forall_app].
    unfold set_log; simpl. by rewrite (assoc_L (++)). }
  unfold get_cached_response. run.
  destruct (files w !! get_cache_path md5 url) as [f|]; simpl;
    [|apply database_fallback_world].
  case_bool_decide; simpl; [|apply database_fallback_world].
  destruct (f_text f); simpl.
  - exists [(INFO, UsingFileCache url)]. split; [done|]. by repeat constructor.
  - apply (Hcomp [(ERROR, ErrorReadingCacheFile); (INFO, UsingFileCache url)]).
    by repeat constructor.
Qed.

Lemma select_by_hash_filter h tbl :
  Database.select_by_hash h (filter (λ r, c_url_hash r ≠ h) tbl) = None.
Proof.
  induction tbl as [|r tbl IH]; [done|].
  rewrite filter_cons. case_decide; simpl; [|done].
  by rewrite bool_decide_false.
Qed.

(** Claim C4 (cache staleness rule).  [get_cached_response] returns the
    fresh entry of the file tier when there is one, and otherwise the fresh
    entry of the database tier; an entry of either tier is fresh when the
    clock minus its stored time is strictly below 24 hours; a stale file,
    or a stale row, gives the result its absence would give. *)
Theorem get_cached_response_staleness (url : string) (w : World) :
  let cached := (get_cached_response md5 url w).1 in
  let path := get_cache_path md5 url in
  cached = match fresh_file md5 url w with
           | Some s => Some s
           | None => fresh_row md5 url w
           end ∧
  (∀ s, fresh_file md5 url w = Some s ↔
        ∃ f, files w !! path = Some f ∧ clock w - f_mtime f < TTL ∧
             f_text f = Some s) ∧
  (∀ s, fresh_row md5 url w = Some s ↔
        ∃ row, Database.select_by_hash (md5 url) (request_cache w) = Some row ∧
               clock w - c_timestamp row * 1000 < TTL ∧ c_response row = s) ∧
  (∀ f, files w !! path = Some f → ¬ clock w - f_mtime f < TTL →
        cached = (get_cached_response md5 url (set_files (delete path) w)).1) ∧
  (∀ row, Database.select_by_hash (md5 url) (request_cache w) = Some row →
          ¬ clock w - c_timestamp row * 1000 < TTL →
          cached = (get_cached_response md5 url
                      (set_request_cache (filter (λ r, c_url_hash r ≠ md5 url)) w)).1).
Proof.
  intros cached path. subst cached.
  split; [apply get_cached_response_result|].
  split; [|split; [|split]].
  - intros s. unfold fresh_file. fold path.
    destruct (files w !! path) as [f|]; simpl.
    + case_bool_decide.
      * split; [by exists f | by intros (? & [= <-] & ? & ?)].
      * split; [done | by intros (? & [= <-] & ? & ?)].
    + split; [done | by intros (? & ? & ?)].
  - intros s. unfold fresh_row.
    destruct (Database.select_by_hash (md5 url) (request_cache w)) as [row|]; simpl.
    + case_bool_decide.
      * split; [intros [= <-]; by exists row | by intros (? & [= <-] & ? & <-)].
      * split; [done | by intros (? & [= <-] & ? & ?)].
    + split; [done | by intros (? & ? & ?)].
  - intros f Hf Hstale. rewrite !get_cached_response_result.
    unfold fresh_file, fresh_row. fold path. simpl.
    rewrite Hf, lookup_delete_eq. simpl. by rewrite bool_decide_false.
  - intros row Hrow Hstale. rewrite !get_cached_response_result.
    unfold fresh_file, fresh_row. simpl.
    rewrite Hrow, select_by_hash_filter. simpl. by rewrite bool_decide_false.
Qed.
End cache.

Section fetch.
Context (md5 : string → string).
Context (server : nat → string → Response).
Context (jitter : nat → Z).

(** One request, and one retry after a sleep, in terms of [sent]. *)
Lemma sent_zero url w : set_requests (cons url) w = sent url 0 [] w.
Proof. by apply world_ext. Qed.

Lemma sent_step url j ns d w :
  sent url j ns (set_naps (cons d) (set_clock (Z.add d) (set_requests (cons url) w))) =
  sent url (S j) (ns ++ [d]) w.
Proof.
  apply world_ext; try done; simpl.
  - rewrite foldr_app. simpl. rewrite (foldr_add_init _ (_ + 0)). lia.
  - by rewrite replicate_app_cons.
  - by rewrite <- (assoc_L (++)).
Qed.

Lemma send_world r method url :
  0 ≤ backoff_factor r →
  ∀ left k w, ∃ j ns,
    (send server r method url left k w).2 = sent url j ns w ∧
    (j ≤ left)%nat ∧ Forall (λ d, 0 ≤ d) ns.
Proof.
  intros Hb. induction left as [|left IH]; intros k w; simpl; step.
  - exists 0%nat, []. split; [|split; [lia | constructor]].
    destruct (is_retry r method _); apply sent_zero.
  - destruct (is_retry r method _).
    + match goal with |- context [send _ _ _ _ _ _ ?w1] =>
        destruct (IH (S k) w1) as (j & ns & Hw & Hj & Hns) end.
      exists (S j), (ns ++ [backoff_time r k]).
      split; [|split; [lia|]].
      * rewrite Hw. apply sent_step.
      * apply Forall_app. split; [done|]. apply Forall_singleton.
        unfold backoff_time. apply Z.mul_nonneg_nonneg; [lia|].
        apply Z.pow_nonneg. lia.
    + exists 0%nat, []. split; [|split; [lia | constructor]].
      apply sent_zero.
Qed.


(** A target that always asks for a retry uses up the retries. *)
Lemma send_exhausts r method url :
  (∀ n, is_retry r method (status_code (server n url)) = true) →
  ∀ left k w,
    send server r method url left k w =
    (MaxRetryError, sent url left (rev (map (backoff_time r) (seq k left))) w).
Proof.
  intros Hretry. induction left as [|left IH]; intros k w; simpl; step; rewrite Hretry.
  - by rewrite sent_zero.
  - rewrite IH. f_equal. apply sent_step.
Qed.
End fetch.

Section fetch_claims.
Context (md5 : string → string).
Context (server : nat → string → Response).
Context (jitter : nat → Z).

Lemma is_retry_create_session method status :
  is_retry create_session method status = true ↔
  method = "GET" ∧ status ∈ [429; 500; 502; 503; 504].
Proof.
  unfold is_retry, create_session. simpl.
  rewrite andb_true_iff, !bool_decide_eq_true, list_elem_of_singleton.
  done.
Qed.

(** Claim C2 (retry bound).  When the origin answers 503 to every request
    for a URL that is neither visited nor cached, the fetch sends
    [total + 1 = 4] requests, sleeps 1, 2 and 4 seconds between them, logs
    the failure and returns [None]; and the policy asks for a retry only
    for [GET] and only for 429 or a 5xx status. *)
Theorem retry_bound (url : string) (visited : gset string) (w : World) :
  (∀ n, status_code (server n url) = 503) →
  url ∉ visited →
  truthy (get_cached_response md5 url w).1 = false →
  ∀ content w', get_page_content md5 server jitter url visited w = (content, w') →
    content = None ∧
    requests w' = replicate (total create_session + 1) url ++ requests w ∧
    total create_session = 3%nat ∧
    naps w' = [4000; 2000; 1000] ++ naps w ∧
    ((ERROR, ErrorFetching url) ∈ log w') ∧
    (∀ method status, is_retry create_session method status = true →
       method = "GET" ∧ (status = 429 ∨ 500 ≤ status < 600)).
Proof.
  intros H503 Hnew Hmiss content w' Hget.
  unfold get_page_content in Hget.
  rewrite bool_decide_false in Hget by done.
  unfold bind at 1 in Hget.
  destruct (get_cached_response_world md5 url w) as (l & Hl & _).
  destruct (get_cached_response md5 url w) as [c wc]; simpl in *. subst wc.
  rewrite Hmiss in Hget.
  unfold session_get in Hget. step.
  rewrite send_exhausts in Hget.
  2:{ intros n. rewrite H503. by apply is_retry_create_session; split; [|set_solver]. }
  injection Hget as <- <-. simpl.
  split; [done|]. split; [done|]. split; [done|]. split; [done|].
  split; [left|].
  intros method status [-> Hst]%is_retry_create_session. split; [done|].
  set_unfold. lia.
Qed.


Lemma select_by_hash_insert_or_replace row tbl :
  Database.select_by_hash (c_url_hash row) (Database.insert_or_replace row tbl) = Some row.
Proof.
  unfold Database.insert_or_replace.
  induction tbl as [|r tbl IH]; simpl.
  - by rewrite bool_decide_true.
  - rewrite filter_cons. case_decide as Hr; simpl; [|done].
    rewrite bool_decide_false by tauto. done.
Qed.

(** A fetch of a URL that is not visited and whose cache lookup gives a
    truthy value is that lookup: lines 117-124 of [get_page_content]. *)
Lemma get_page_content_hit url (visited : gset string) w :
  url ∉ visited →
  truthy (get_cached_response md5 url w).1 = true →
  get_page_content md5 server jitter url visited w = get_cached_response md5 url w.
Proof.
  intros Hnew Hhit. unfold get_page_content.
  rewrite bool_decide_false by done. unfold bind at 1.
  destruct (get_cached_response md5 url w) as [c wc]; simpl in Hhit.
  by rewrite Hhit.
Qed.

End fetch_claims.

End RequestHandlerFacts.

(** * Facts about scraper.py *)

Module ScraperFacts.
Import RequestHandler AINewsScraper.

Lemma dedup_refl w : dedup w w.
Proof. split; [done|]. exists []. split; [done|]. by intros u ?%elem_of_nil. Qed.

Lemma dedup_trans w1 w2 w3 : dedup w1 w2 → dedup w2 w3 → dedup w1 w3.
Proof.
  intros [Hv1 (n1 & Hr1 & Hn1)] [Hv2 (n2 & Hr2 & Hn2)].
  split; [set_solver|]. exists (n2 ++ n1).
  split; [by rewrite Hr2, Hr1, (assoc_L (++))|].
  intros u [Hu|Hu]%elem_of_app; [|by apply Hn1].
  intros Hin. by apply (Hn2 u Hu), Hv1.
Qed.

(** A step that sends nothing and forgets no visited URL. *)
Lemma dedup_quiet w w' :
  requests w' = requests w → visited_urls w ⊆ visited_urls w' → dedup w w'.
Proof.
  intros Hr Hv. split; [done|]. exists []. split; [done|].
  by intros u ?%elem_of_nil.
Qed.

Section crawl.

Context (md5 : string → string).
Context (server : nat → string → Response).
Context (jitter : nat → Z).
Context (extract_article_links : string → option (list Link)).
Context (extract_article_data : string → string → string → option Article).

Lemma save_to_cache_net url content w :
  requests (save_to_cache md5 url content w).2 = requests w ∧
  visited_urls (save_to_cache md5 url content w).2 = visited_urls w.
Proof.
  unfold save_to_cache, Database.save_to_cache. run.
  destruct (fs_readonly w); simpl; destruct (db_readonly w); simpl; auto.
Qed.

(** A URL of the visited set is not fetched: no cache lookup, no request. *)
Lemma get_page_content_visited url (visited : gset string) w :
  url ∈ visited →
  get_page_content md5 server jitter url visited w =
  (None, set_log (cons (INFO, AlreadyProcessed url)) w).
Proof.
  intros Hin. unfold get_page_content. by rewrite bool_decide_true.
Qed.

(** What a fetch does on the network. *)
Lemma get_page_content_net url (visited : gset string) w content w' :
  get_page_content md5 server jitter url visited w = (content, w') →
  visited_urls w' = visited_urls w ∧
  ∃ k, requests w' = replicate k url ++ requests w ∧
       (url ∈ visited → k = 0%nat).
Proof.
  intros Hget.
  destruct (decide (url ∈ visited)) as [Hin|Hnin].
  { rewrite get_page_content_visited in Hget by done.
    injection Hget as <- <-. split; [done|]. by exists 0%nat. }
  unfold get_page_content in Hget. rewrite bool_decide_false in Hget by done.
  unfold bind at 1 in Hget.
  destruct (RequestHandlerFacts.get_cached_response_world md5 url w) as (l & Hl & _).
  destruct (get_cached_response md5 url w) as [c wc]; simpl in Hl. subst wc.
  destruct (truthy c).
  { injection Hget as <- <-. split; [done|]. by exists 0%nat. }
  unfold session_get in Hget. step.
  set (wf := set_log (cons (INFO, FetchingURL url)) (set_log (app l) w)) in *.
  destruct (RequestHandlerFacts.send_world server create_session "GET" url
              ltac:(done) (total create_session) 0%nat wf) as (j & ns & Hws & _).
  destruct (send server create_session "GET" url (total create_session) 0 wf)
    as [o ws]; simpl in Hws. subst ws.
  destruct o as [response|]; [destruct (raise_for_status (status_code response))|].
  - injection Hget as <- <-. split; [done|]. by exists (S j).
  - pose proof (save_to_cache_net url (text response) (sent url j ns wf)) as [Hr Hv].
    destruct (save_to_cache md5 url (text response) (sent url j ns wf)) as [[] ws].
    unfold random_uniform in Hget. injection Hget as <- <-.
    simpl in *. split; [done|]. exists (S j). by rewrite Hr.
  - injection Hget as <- <-. split; [done|]. by exists (S j).
Qed.

Lemma get_page_content_dedup url w :
  dedup w (get_page_content md5 server jitter url (visited_urls w) w).2.
Proof.
  destruct (get_page_content md5 server jitter url (visited_urls w) w)
    as [content w'] eqn:Hget.
  destruct (get_page_content_net url (visited_urls w) w content w' Hget)
    as (Hv & k & Hr & Hk). simpl.
  split; [by rewrite Hv|]. exists (replicate k url). split; [done|].
  intros u [-> Hk0]%elem_of_replicate Hin. by apply Hk0, Hk.
Qed.

Lemma scrape_article_content_dedup url fallback_title w :
  dedup w (scrape_article_content md5 server jitter extract_article_data
             url fallback_title w).2.
Proof.
  unfold scrape_article_content. step.
  pose proof (get_page_content_dedup url w) as Hd.
  destruct (get_page_content md5 server jitter url (visited_urls w) w) as [[html|] w1];
    simpl in *; [|done].
  case_bool_decide; simpl; [|done].
  eapply dedup_trans; [done|]. apply dedup_quiet; [done|]. simpl. set_solver.
Qed.

Lemma for_articles_dedup articles : ∀ max_articles_per_page processed_count articles_data w,
  dedup w (for_articles md5 server jitter extract_article_data articles
             max_articles_per_page processed_count articles_data w).2.
Proof.
  induction articles as [|article rest IH]; intros m n acc w; simpl.
  - apply dedup_refl.
  - case_bool_decide; [apply dedup_refl|].
    step. case_bool_decide; [apply IH|].
    pose proof (scrape_article_content_dedup (l_url article) (l_title article) w) as Hd.
    destruct (scrape_article_content md5 server jitter extract_article_data
                (l_url article) (l_title article) w) as [[data|] w1]; simpl in Hd.
    + case_bool_decide.
      * eapply dedup_trans; [done|].
        eapply dedup_trans; [|apply IH]. by apply dedup_quiet.
      * eapply dedup_trans; [done | apply IH].
    + eapply dedup_trans; [done | apply IH].
Qed.

Lemma scrape_page_dedup use_ai_term max_articles_per_page page articles_data w :
  dedup w (scrape_page md5 server jitter extract_article_links extract_article_data
             use_ai_term max_articles_per_page page articles_data w).2.
Proof.
  unfold scrape_page. step.
  set (url := page_url use_ai_term page).
  set (w0 := set_log (cons (INFO, ScrapingPage page url)) w).
  pose proof (get_page_content_dedup url w0) as Hd.
  assert (H0 : dedup w w0) by by apply dedup_quiet.
  destruct (get_page_content md5 server jitter url (visited_urls w0) w0)
    as [content w1]; simpl in Hd.
  assert (H1 : dedup w w1) by exact (dedup_trans _ _ _ H0 Hd).
  clear H0 Hd. clearbody w0.
  destruct content as [html|]; simpl; [|done].
  case_bool_decide; simpl; [|done].
  destruct (extract_article_links html) as [[|article rest]|]; cbv beta iota.
  - eapply dedup_trans; [done|]. by apply dedup_quiet.
  - pose proof (for_articles_dedup (article :: rest) max_articles_per_page
                  0%nat articles_data w1) as Hf.
    destruct (for_articles md5 server jitter extract_article_data (article :: rest)
                max_articles_per_page 0 articles_data w1) as [[n data] w2].
    simpl in Hf. simpl fst. simpl snd.
    eapply dedup_trans; [done|]. eapply dedup_trans; [done|].
    case_bool_decide; simpl; by apply dedup_quiet.
  - eapply dedup_trans; [done|]. by apply dedup_quiet.
Qed.

Lemma for_pages_dedup use_ai_term max_articles_per_page pages : ∀ articles_data w,
  dedup w (for_pages md5 server jitter extract_article_links extract_article_data
             use_ai_term max_articles_per_page pages articles_data w).2.
Proof.
  induction pages as [|page rest IH]; intros acc w; simpl.
  - apply dedup_refl.
  - unfold bind.
    pose proof (scrape_page_dedup use_ai_term max_articles_per_page page acc w) as Hd.
    destruct (scrape_page md5 server jitter extract_article_links
                extract_article_data use_ai_term max_articles_per_page page acc w)
      as [[flow data] w1]; simpl in *.
    destruct flow; [|done]. eapply dedup_trans; [done | apply IH].
Qed.

Lemma save_articles_net arts w :
  requests (Database.save_articles arts w).2 = requests w ∧
  visited_urls (Database.save_articles arts w).2 = visited_urls w.
Proof.
  destruct arts as [|a arts]; [done|].
  unfold Database.save_articles, bind.
  by rewrite DatabaseFacts.save_loop_eq.
Qed.

Lemma for_articles_skip title rest m n acc w u :
  u ∈ visited_urls w → Z.of_nat n < m →
  for_articles md5 server jitter extract_article_data (mkLink u title :: rest) m n acc w =
  for_articles md5 server jitter extract_article_data rest m n acc w.
Proof.
  intros Hin Hlt. simpl. rewrite bool_decide_false by lia.
  step. simpl. by rewrite bool_decide_true.
Qed.

(** When every link is visited, the loop over the links does nothing. *)
Lemma for_articles_all_visited links : ∀ m n acc w,
  (∀ link, link ∈ links → l_url link ∈ visited_urls w) →
  for_articles md5 server jitter extract_article_data links m n acc w = ((n, acc), w).
Proof.
  induction links as [|link rest IH]; intros m n acc w Hall; simpl; [done|].
  case_bool_decide; [done|]. step.
  rewrite bool_decide_true by (apply Hall; by left).
  apply IH. intros l Hl. apply Hall. by right.
Qed.

(** The loop over the pages and its body, step by step. *)
Lemma for_pages_cons use_ai_term max_articles_per_page page rest articles_data w :
  for_pages md5 server jitter extract_article_links extract_article_data
    use_ai_term max_articles_per_page (page :: rest) articles_data w =
  let (r, w1) := scrape_page md5 server jitter extract_article_links
                   extract_article_data use_ai_term max_articles_per_page
                   page articles_data w in
  match r.1 with
  | Next => for_pages md5 server jitter extract_article_links extract_article_data
              use_ai_term max_articles_per_page rest r.2 w1
  | Break => (r.2, w1)
  end.
Proof.
  simpl. unfold bind.
  destruct (scrape_page _ _ _ _ _ _ _ _ _ _) as [[flow data] w1].
  by destruct flow.
Qed.

Lemma scrape_page_eq use_ai_term max_articles_per_page page articles_data w :
  scrape_page md5 server jitter extract_article_links extract_article_data
    use_ai_term max_articles_per_page page articles_data w =
  let url := page_url use_ai_term page in
  let (content, w1) :=
    get_page_content md5 server jitter url (visited_urls w)
      (set_log (cons (INFO, ScrapingPage page url)) w) in
  match content with
  | Some html =>
      if bool_decide (html ≠ "") then
        match extract_article_links html with
        | None => ((Next, articles_data),
                   set_log (cons (ERROR, ErrorProcessingPage page)) w1)
        | Some [] => ((Next, articles_data),
                      set_log (cons (WARNING, NoArticlesFound page)) w1)
        | Some articles =>
            let (r, w2) := for_articles md5 server jitter extract_article_data
                             articles max_articles_per_page 0 articles_data w1 in
            if bool_decide (r.1 = 0%nat) then
              ((Break, r.2), set_log (cons (INFO, NoNewArticles page)) w2)
            else
              ((Next, r.2),
               (sleep (3000 + jitter (draws w2) `mod` 2001) (set_draws S w2)).2)
        end
      else ((Next, articles_data), w1)
  | None => ((Next, articles_data), w1)
  end.
Proof.
  unfold scrape_page. step. simpl visited_urls.
  destruct (get_page_content _ _ _ _ _ _) as [[html|] w1]; [|done].
  case_bool_decide; [|done].
  destruct (extract_article_links html) as [[|article rest]|]; [done| |done].
  cbv beta iota.
  destruct (for_articles _ _ _ _ _ _ _ _ _) as [r w2].
  by case_bool_decide.
Qed.

(** Claim C5 (dedup invariant).  A URL of the visited set at the start of
    [scrape_khaleejtimes_ai] is requested by none of the requests of the
    run and is still visited at its end; [get_page_content] returns [None]
    for a visited URL without touching cache or network; and the loop over
    the links skips a visited link before any fetch. *)
Theorem dedup_invariant (pages : nat) (use_ai_term : bool)
    (max_articles_per_page : Z) (w : World) (u : string) :
  u ∈ visited_urls w →
  ∀ saved_count w',
    scrape_khaleejtimes_ai md5 server jitter extract_article_links
      extract_article_data pages use_ai_term max_articles_per_page w =
      (saved_count, w') →
    (∃ new, requests w' = new ++ requests w ∧ u ∉ new) ∧
    u ∈ visited_urls w' ∧
    (∀ (visited : gset string) w0, u ∈ visited →
       get_page_content md5 server jitter u visited w0 =
       (None, set_log (cons (INFO, AlreadyProcessed u)) w0)) ∧
    (∀ title rest m n acc w0, u ∈ visited_urls w0 → Z.of_nat n < m →
       for_articles md5 server jitter extract_article_data
         (mkLink u title :: rest) m n acc w0 =
       for_articles md5 server jitter extract_article_data rest m n acc w0).
Proof.
  intros Hin saved_count w' Hrun.
  unfold scrape_khaleejtimes_ai, bind in Hrun.
  pose proof (for_pages_dedup use_ai_term max_articles_per_page (seq 1 pages) [] w)
    as [Hv (new & Hr & Hnew)].
  destruct (for_pages md5 server jitter extract_article_links extract_article_data
              use_ai_term max_articles_per_page (seq 1 pages) [] w) as [data w1].
  simpl in *.
  destruct (save_articles_net data w1) as [Hr' Hv'].
  rewrite Hrun in Hr', Hv'. simpl in *.
  split; [|split; [|split]].
  - exists new. split; [congruence|]. intros Hu. by apply (Hnew u).
  - rewrite Hv'. by apply Hv.
  - intros visited w0. apply get_page_content_visited.
  - intros title rest m n acc w0. apply for_articles_skip.
Qed.

(** Claim C6 (early stop), as amended.  When a page is fetched, at least
    one link is found on it, and the loop over its links ends with no
    article processed, the crawl from that page on is over after that
    page, whatever the pages that remain: its result is the state after
    the page, and is the result of the crawl over that page alone.  This
    is so in particular when every link of the page is visited. *)
Theorem early_stop (use_ai_term : bool) (max_articles_per_page : Z)
    (page : nat) (rest : list nat) (articles_data : list Article)
    (w w1 : World) (html : string) (links : list Link) :
  let url := page_url use_ai_term page in
  let crawl := for_pages md5 server jitter extract_article_links
                 extract_article_data use_ai_term max_articles_per_page in
  get_page_content md5 server jitter url (visited_urls w)
    (set_log (cons (INFO, ScrapingPage page url)) w) = (Some html, w1) →
  html ≠ "" →
  extract_article_links html = Some links →
  links ≠ [] →
  (∀ data w2,
     for_articles md5 server jitter extract_article_data links
       max_articles_per_page 0 articles_data w1 = ((0%nat, data), w2) →
     crawl (page :: rest) articles_data w =
       (data, set_log (cons (INFO, NoNewArticles page)) w2) ∧
     crawl (page :: rest) articles_data w = crawl [page] articles_data w) ∧
  ((∀ link, link ∈ links → l_url link ∈ visited_urls w1) →
   crawl (page :: rest) articles_data w =
     (articles_data, set_log (cons (INFO, NoNewArticles page)) w1)).
Proof.
  intros url crawl Hget Hhtml Hlinks Hne.
  assert (Hstop : ∀ rest' data w2,
    for_articles md5 server jitter extract_article_data links
      max_articles_per_page 0 articles_data w1 = ((0%nat, data), w2) →
    crawl (page :: rest') articles_data w =
      (data, set_log (cons (INFO, NoNewArticles page)) w2)).
  { intros rest' data w2 Hfor. subst crawl.
    rewrite for_pages_cons, scrape_page_eq. fold url. cbv zeta. rewrite Hget.
    rewrite bool_decide_true by done. rewrite Hlinks.
    destruct links as [|link links']; [done|].
    rewrite Hfor. done. }
  split.
  - intros data w2 Hfor. split; [by apply Hstop|].
    by rewrite (Hstop rest data w2), (Hstop [] data w2).
  - intros Hall. apply Hstop. by apply for_articles_all_visited.
Qed.

(** Claim C7 (zero links), as amended.  When a page is fetched and no link
    is found on it, the body of the loop logs the warning and ends with
    [Next]: the end-of-page check is not run and the crawl goes on with the
    pages that remain. *)
Theorem zero_links_continue (use_ai_term : bool) (max_articles_per_page : Z)
    (page : nat) (rest : list nat) (articles_data : list Article)
    (w w1 : World) (html : string) :
  let url := page_url use_ai_term page in
  get_page_content md5 server jitter url (visited_urls w)
    (set_log (cons (INFO, ScrapingPage page url)) w) = (Some html, w1) →
  html ≠ "" →
  extract_article_links html = Some [] →
  scrape_page md5 server jitter extract_article_links extract_article_data
    use_ai_term max_articles_per_page page articles_data w =
    ((Next, articles_data), set_log (cons (WARNING, NoArticlesFound page)) w1) ∧
  for_pages md5 server jitter extract_article_links extract_article_data
    use_ai_term max_articles_per_page (page :: rest) articles_data w =
  for_pages md5 server jitter extract_article_links extract_article_data
    use_ai_term max_articles_per_page rest articles_data
    (set_log (cons (WARNING, NoArticlesFound page)) w1).
Proof.
  intros url Hget Hhtml Hlinks.
  assert (Hpage : scrape_page md5 server jitter extract_article_links
            extract_article_data use_ai_term max_articles_per_page page
            articles_data w =
          ((Next, articles_data), set_log (cons (WARNING, NoArticlesFound page)) w1)).
  { rewrite scrape_page_eq. fold url. cbv zeta. rewrite Hget.
    rewrite bool_decide_true by done. by rewrite Hlinks. }
  split; [done|]. by rewrite for_pages_cons, Hpage.
Qed.

End crawl.

(** Claim C10 (unit mismatch of the sweeps).  [clear_old_cache(hours)]
    removes the files older than [hours] days and the rows older than
    [hours] hours: the retention of the file tier is 24 times that of the
    database tier, so the two cutoffs differ as soon as [hours] is not 0;
    the result is the sum of the two counts. *)
Theorem clear_old_cache_unit_mismatch (hours : Z) (w : World) :
  fs_readonly w = false →
  db_readonly w = false →
  ∀ total_cleared w', AINewsScraper.clear_old_cache hours w = (total_cleared, w') →
    let file_cutoff := clock w - hours * 86400000 in
    let db_cutoff := (clock w - hours * 3600000) `div` 1000 in
    (∀ name f, files w !! name = Some f →
       (files w' !! name = None ↔ f_mtime f < file_cutoff) ∧
       (files w' !! name = Some f ↔ ¬ f_mtime f < file_cutoff)) ∧
    (∀ r, r ∈ request_cache w →
       (r ∉ request_cache w' ↔ c_timestamp r < db_cutoff)) ∧
    total_cleared =
      (size (filter (λ kv : string * File, (f_mtime kv.2 < file_cutoff)%Z) (files w)) +
       length (filter (λ r, (c_timestamp r < db_cutoff)%Z) (request_cache w)))%nat ∧
    clock w - file_cutoff = 24 * (hours * 3600000) ∧
    (hours ≠ 0 → file_cutoff ≠ clock w - hours * 3600000).
Proof.
  intros Hfs Hdb total_cleared w' Hclear file_cutoff db_cutoff.
  unfold AINewsScraper.clear_old_cache, clear_old_file_cache,
    Database.clear_old_cache, Database.cutoff_time in Hclear.
  run. rewrite Hfs in Hclear. simpl in Hclear. rewrite Hdb in Hclear.
  fold file_cutoff db_cutoff in Hclear.
  injection Hclear as <- <-. simpl.
  pose proof (length_filter_split (λ r, c_timestamp r < db_cutoff) (request_cache w))
    as Hsplit.
  split; [|split; [|split; [|split]]].
  - intros name f Hf. split.
    + rewrite map_lookup_filter_None. split.
      * intros [Hn|Hn]; [congruence|]. specialize (Hn f Hf). simpl in Hn.
        destruct (decide (f_mtime f < file_cutoff)); tauto.
      * intros Hold. right. intros f' Hf'. simpl. rewrite Hf in Hf'.
        injection Hf' as <-. tauto.
    + rewrite map_lookup_filter_Some. simpl. tauto.
  - intros r Hin. rewrite list_elem_of_filter. split.
    + intros Hn. destruct (decide (c_timestamp r < db_cutoff)); tauto.
    + tauto.
  - lia.
  - subst file_cutoff. lia.
  - intros Hh. subst file_cutoff. lia.
Qed.

End ScraperFacts.

(** * The theorems on concrete runs *)

Module Runs.
Import Scenario.

(** The batch [batch] on the store [stored]: three records are taken, two
    are skipped, the article of [a1] keeps its row 7 and has the new
    title. *)
Lemma save_articles_upsert_witness :
  NoDup (omap a_url (articles stored)) ∧
  Database.save_articles batch stored =
    (3%nat, (Database.save_articles batch stored).2) ∧
  NoDup (omap a_url (articles (Database.save_articles batch stored).2)) ∧
  ∃ row, row ∈ articles (Database.save_articles batch stored).2 ∧
         a_title row = "title 1" ∧ a_url row = Some a1 ∧ a_id row = 7.
Proof.
  assert (Hnd : NoDup (omap a_url (articles stored))) by compute_done.
  assert (Hrun : Database.save_articles batch stored =
                 (3%nat, (Database.save_articles batch stored).2))
    by (vm_compute; reflexivity).
  destruct (DatabaseFacts.save_articles_upsert batch stored Hnd _ _ Hrun)
    as (Hnd' & _ & _ & Hrow & _).
  split; [exact Hnd|]. split; [exact Hrun|]. split; [exact Hnd'|].
  destruct (Hrow 0%nat (article "title 1" "text 1" a1)
              (mkArticleRow 0 "title 1" (Some "text 1") (Some a1)
                 (Some "2025-01-01") (Some "Khaleej Times")
                 (Some "2025-01-02 10:00:00") (Some "ai,news")) a1)
    as (row & Hin & Hvals & Hid).
  - reflexivity.
  - reflexivity.
  - vm_compute; reflexivity.
  - reflexivity.
  - intros j article' new' Hj Hlook Hv.
    destruct j as [|[|[|[|[|j]]]]]; simpl in Hlook; try lia; try discriminate Hlook;
      injection Hlook as <-; vm_compute in Hv; try discriminate Hv;
      injection Hv as <-; discriminate.
  - exists row. split; [exact Hin|].
    rewrite Hvals. split; [reflexivity|]. split; [reflexivity|].
    simpl. apply (Hid (mkArticleRow 7 "old title" (Some "old text") (Some a1)
                         None None None None)); [|reflexivity].
    apply list_elem_of_singleton. reflexivity.
Defined.

(** One hour of retention on the cache [aged]: the row of two hours ago
    goes, the row of exactly one hour ago and the newer one stay. *)
Lemma clear_old_cache_evicts_witness :
  db_readonly aged = false ∧
  Database.clear_old_cache 1 aged = (1%nat, (Database.clear_old_cache 1 aged).2) ∧
  (mkCacheRow "h1" "u1" "r1" None (1700000000 - 7200)
     ∉ request_cache (Database.clear_old_cache 1 aged).2) ∧
  mkCacheRow "h3" "u3" "r3" None (1700000000 - 60)
    ∈ request_cache (Database.clear_old_cache 1 aged).2.
Proof.
  assert (Hro : db_readonly aged = false) by reflexivity.
  assert (Hrun : Database.clear_old_cache 1 aged =
                 (1%nat, (Database.clear_old_cache 1 aged).2))
    by (vm_compute; reflexivity).
  destruct (DatabaseFacts.clear_old_cache_evicts 1 aged Hro _ _ Hrun)
    as (Hold & Hnew & _ & _).
  split; [exact Hro|]. split; [exact Hrun|]. split.
  - apply Hold; [compute_done | vm_compute; reflexivity].
  - apply Hnew; [compute_done | vm_compute; reflexivity].
Defined.

(** The lookup of [a1] in the cache [tiers]: the file is stale and counts
    as absent, the row of the database is fresh and is returned. *)
Lemma get_cached_response_staleness_witness :
  files tiers !! RequestHandler.get_cache_path md5 a1 =
    Some (mkFile (Some "stale text") (1700000000000 - 86400000)) ∧
  ¬ clock tiers - (1700000000000 - 86400000) < TTL ∧
  (RequestHandler.get_cached_response md5 a1 tiers).1 =
    (RequestHandler.get_cached_response md5 a1
       (set_files (delete (RequestHandler.get_cache_path md5 a1)) tiers)).1 ∧
  (RequestHandler.get_cached_response md5 a1 tiers).1 = Some "fresh text".
Proof.
  assert (Hf : files tiers !! RequestHandler.get_cache_path md5 a1 =
               Some (mkFile (Some "stale text") (1700000000000 - 86400000)))
    by (vm_compute; reflexivity).
  assert (Hstale : ¬ clock tiers - (1700000000000 - 86400000) < TTL)
    by (vm_compute; discriminate).
  destruct (RequestHandlerFacts.get_cached_response_staleness md5 a1 tiers)
    as (Hres & _ & _ & Hfile & _).
  split; [exact Hf|]. split; [exact Hstale|]. split.
  - exact (Hfile _ Hf Hstale).
  - rewrite Hres. vm_compute. reflexivity.
Defined.

(** The site that is down: four requests for one fetch. *)
Lemma retry_bound_witness :
  (∀ n, RequestHandler.status_code (busy n gone) = 503) ∧
  (gone ∉ (∅ : gset string)) ∧
  truthy (RequestHandler.get_cached_response md5 gone w0).1 = false ∧
  RequestHandler.get_page_content md5 busy jitter gone ∅ w0 =
    (None, (RequestHandler.get_page_content md5 busy jitter gone ∅ w0).2) ∧
  requests (RequestHandler.get_page_content md5 busy jitter gone ∅ w0).2 =
    [gone; gone; gone; gone] ∧
  naps (RequestHandler.get_page_content md5 busy jitter gone ∅ w0).2 =
    [4000; 2000; 1000].
Proof.
  assert (H503 : ∀ n, RequestHandler.status_code (busy n gone) = 503)
    by (intros n; reflexivity).
  assert (Hnew : gone ∉ (∅ : gset string)) by compute_done.
  assert (Hmiss : truthy (RequestHandler.get_cached_response md5 gone w0).1 = false)
    by (vm_compute; reflexivity).
  assert (Hrun : RequestHandler.get_page_content md5 busy jitter gone ∅ w0 =
            (None, (RequestHandler.get_page_content md5 busy jitter gone ∅ w0).2))
    by (vm_compute; reflexivity).
  destruct (RequestHandlerFacts.retry_bound md5 busy jitter gone ∅ w0
              H503 Hnew Hmiss _ _ Hrun) as (_ & Hreq & _ & Hnaps & _).
  split; [exact H503|]. split; [exact Hnew|]. split; [exact Hmiss|].
  split; [exact Hrun|]. split; [exact Hreq | exact Hnaps].
Defined.



(** A second run on the store [w1], where [a1] is visited. *)
Lemma dedup_invariant_witness :
  a1 ∈ visited_urls w1 ∧
  scrape 3 w1 = (0%nat, (scrape 3 w1).2) ∧
  (∃ new, requests (scrape 3 w1).2 = new ++ requests w1 ∧ a1 ∉ new) ∧
  a1 ∈ visited_urls (scrape 3 w1).2.
Proof.
  assert (Hin : a1 ∈ visited_urls w1) by compute_done.
  assert (Hcount : (scrape 3 w1).1 = 0%nat) by (vm_compute; reflexivity).
  assert (Hrun : scrape 3 w1 = (0%nat, (scrape 3 w1).2))
    by (rewrite <- Hcount; apply surjective_pairing).
  destruct (ScraperFacts.dedup_invariant md5 site jitter extract_article_links
              extract_article_data 3 true 10 w1 a1 Hin _ _ Hrun)
    as (Hreq & Hvis & _).
  split; [exact Hin|]. split; [exact Hrun|]. split; [exact Hreq | exact Hvis].
Defined.

(** Page 2 of a site whose pages all link to [a1], after page 1 has
    scraped it: the crawl stops there, page 3 is not run. *)
Lemma early_stop_witness :
  let crawl := AINewsScraper.for_pages md5 site jitter links_repeat
                 extract_article_data true 10 in
  let after1 := AINewsScraper.scrape_page md5 site jitter links_repeat
                  extract_article_data true 10 1 [] w0 in
  let w := after1.2 in
  let url := AINewsScraper.page_url true 2 in
  let fetched := RequestHandler.get_page_content md5 site jitter url
                   (visited_urls w)
                   (set_log (cons (INFO, ScrapingPage 2 url)) w) in
  fetched = (Some "page2", fetched.2) ∧
  links_repeat "page2" = Some [AINewsScraper.mkLink a1 "title 1"] ∧
  (∀ link, link ∈ [AINewsScraper.mkLink a1 "title 1"] →
           AINewsScraper.l_url link ∈ visited_urls fetched.2) ∧
  crawl [2; 3]%nat after1.1.2 w =
    (after1.1.2, set_log (cons (INFO, NoNewArticles 2)) fetched.2) ∧
  crawl [2; 3]%nat after1.1.2 w = crawl [2%nat] after1.1.2 w.
Proof.
  intros crawl after1 w url fetched.
  assert (Hpage2 : fetched.1 = Some "page2") by (vm_compute; reflexivity).
  assert (Hget : fetched = (Some "page2", fetched.2))
    by (rewrite <- Hpage2; apply surjective_pairing).
  assert (Hlinks : links_repeat "page2" = Some [AINewsScraper.mkLink a1 "title 1"])
    by reflexivity.
  assert (Hall : ∀ link, link ∈ [AINewsScraper.mkLink a1 "title 1"] →
                         AINewsScraper.l_url link ∈ visited_urls fetched.2).
  { intros link ->%list_elem_of_singleton. compute_done. }
  destruct (ScraperFacts.early_stop md5 site jitter links_repeat
              extract_article_data true 10 2 [3%nat] after1.1.2 w fetched.2
              "page2" [AINewsScraper.mkLink a1 "title 1"]
              Hget ltac:(discriminate) Hlinks ltac:(discriminate))
    as [Hzero Hvisited].
  split; [exact Hget|]. split; [exact Hlinks|]. split; [exact Hall|].
  split; [exact (Hvisited Hall)|].
  apply (Hzero after1.1.2 fetched.2).
  apply ScraperFacts.for_articles_all_visited. exact Hall.
Defined.

(** The claim C6 as it is written fails on a page without links: page 2 of
    the site yields no new article, and page 3 is fetched all the same. *)
Lemma early_stop_not_on_empty_page :
  extract_article_links "page2" = Some [] ∧
  ((INFO, ScrapingPage 3 (AINewsScraper.page_url true 3)) ∈ log (scrape 3 w0).2) ∧
  AINewsScraper.page_url true 3 ∈ requests (scrape 3 w0).2.
Proof. split; [reflexivity|]. split; compute_done. Qed.

(** Page 2 of the site, which has no link, after page 1. *)
Lemma zero_links_continue_witness :
  let after1 := AINewsScraper.scrape_page md5 site jitter extract_article_links
                  extract_article_data true 10 1 [] w0 in
  let w := after1.2 in
  let url := AINewsScraper.page_url true 2 in
  let fetched := RequestHandler.get_page_content md5 site jitter url
                   (visited_urls w)
                   (set_log (cons (INFO, ScrapingPage 2 url)) w) in
  fetched = (Some "page2", fetched.2) ∧
  extract_article_links "page2" = Some [] ∧
  AINewsScraper.scrape_page md5 site jitter extract_article_links
    extract_article_data true 10 2 after1.1.2 w =
    ((AINewsScraper.Next, after1.1.2),
     set_log (cons (WARNING, NoArticlesFound 2)) fetched.2).
Proof.
  intros after1 w url fetched.
  assert (Hpage2 : fetched.1 = Some "page2") by (vm_compute; reflexivity).
  assert (Hget : fetched = (Some "page2", fetched.2))
    by (rewrite <- Hpage2; apply surjective_pairing).
  assert (Hlinks : extract_article_links "page2" = Some []) by reflexivity.
  destruct (ScraperFacts.zero_links_continue md5 site jitter extract_article_links
              extract_article_data true 10 2 [3%nat] after1.1.2 w fetched.2
              "page2" Hget ltac:(discriminate) Hlinks) as [Hpage _].
  split; [exact Hget|]. split; [exact Hlinks | exact Hpage].
Defined.

(** The claim C7 as it is written fails: page 1 has no link, the warning is
    logged, the end-of-page check is not run, and the crawl goes on to page
    2 and saves its article. *)
Lemma zero_links_check_bypassed :
  let run := AINewsScraper.scrape_khaleejtimes_ai md5 site jitter links_later
               extract_article_data 2 true 10 w0 in
  links_later "page1" = Some [] ∧
  ((WARNING, NoArticlesFound 1) ∈ log run.2) ∧
  ((INFO, NoNewArticles 1) ∉ log run.2) ∧
  ((INFO, ScrapingPage 2 (AINewsScraper.page_url true 2)) ∈ log run.2) ∧
  run.1 = 1%nat.
Proof.
  intros run. split; [reflexivity|].
  split; [compute_done|]. split; [compute_done|]. split; [compute_done|].
  vm_compute. reflexivity.
Qed.

(** One "hour" of retention on the cache [aged]: the file of two hours ago
    stays, the row of two hours ago goes. *)
Lemma clear_old_cache_unit_mismatch_witness :
  fs_readonly aged = false ∧
  db_readonly aged = false ∧
  AINewsScraper.clear_old_cache 1 aged =
    (2%nat, (AINewsScraper.clear_old_cache 1 aged).2) ∧
  files (AINewsScraper.clear_old_cache 1 aged).2 !! "two-hours.html" =
    Some (mkFile (Some "x") (1700000000000 - 7200000)) ∧
  (mkCacheRow "h1" "u1" "r1" None (1700000000 - 7200)
     ∉ request_cache (AINewsScraper.clear_old_cache 1 aged).2).
Proof.
  assert (Hrun : AINewsScraper.clear_old_cache 1 aged =
                 (2%nat, (AINewsScraper.clear_old_cache 1 aged).2))
    by (vm_compute; reflexivity).
  destruct (ScraperFacts.clear_old_cache_unit_mismatch 1 aged eq_refl eq_refl
              _ _ Hrun) as (Hfiles & Hrows & _).
  split; [reflexivity|]. split; [reflexivity|]. split; [exact Hrun|]. split.
  - apply (Hfiles "two-hours.html"); [vm_compute; reflexivity|].
    vm_compute. discriminate.
  - apply Hrows; [compute_done | vm_compute; reflexivity].
Defined.

End Runs.

(** * Further facts about database.py *)

Module DatabaseMore.
Import Database.

Lemma NoDup_fmap_filter {A B} (f : A → B) (P : A → Prop) `{∀ x, Decision (P x)}
    (l : list A) :
  NoDup (f <$> l) → NoDup (f <$> filter P l).
Proof.
  induction l as [|x l IH]; [done|].
  rewrite fmap_cons, NoDup_cons. intros [Hx Hl].
  rewrite filter_cons. case_decide; [|by apply IH].
  rewrite fmap_cons, NoDup_cons. split; [|by apply IH].
  intros (y & Hy & Hin)%list_elem_of_fmap. apply Hx.
  apply list_elem_of_fmap. exists y. split; [done|].
  by apply list_elem_of_filter in Hin as [_ ?].
Qed.

Lemma select_by_hash_Some h tbl r :
  select_by_hash h tbl = Some r → r ∈ tbl ∧ c_url_hash r = h.
Proof.
  induction tbl as [|x tbl IH]; simpl; [done|].
  case_bool_decide as Hx.
  - intros [= ->]. split; [by left | done].
  - intros [Hin ?]%IH. split; [by right | done].
Qed.

Lemma select_by_hash_app_l h tbl1 tbl2 r :
  select_by_hash h tbl1 = Some r → select_by_hash h (tbl1 ++ tbl2) = Some r.
Proof.
  induction tbl1 as [|x tbl1 IH]; simpl; [done|].
  by case_bool_decide.
Qed.

Lemma select_by_hash_filter_other h (P : CacheRow → Prop) `{∀ x, Decision (P x)}
    tbl r :
  select_by_hash h tbl = Some r → P r →
  select_by_hash h (filter P tbl) = Some r.
Proof.
  induction tbl as [|x tbl IH]; simpl; [done|].
  rewrite filter_cons. case_bool_decide as Hx.
  - intros [= ->] Hr. rewrite decide_True by done. simpl.
    by rewrite bool_decide_true.
  - intros Hsel Hr. case_decide; [|by apply IH].
    simpl. rewrite bool_decide_false by done. by apply IH.
Qed.

(** Property X1.  The write and the read of the database tier: the row written is the
    one read back under its hash, the rows of other hashes and other URLs
    are read back as before, the two keys of the table stay unique, and
    [articles] is not touched. *)
Theorem cache_row_round_trip (url_hash url content : string) (timestamp : Z)
    (w : World) :
  db_readonly w = false →
  let w' := (save_to_cache url_hash url content timestamp w).2 in
  (get_cached_response url_hash w').1 = Some (content, timestamp) ∧
  (∀ h r, h ≠ url_hash → c_url r ≠ url →
     select_by_hash h (request_cache w) = Some r →
     (get_cached_response h w').1 = Some (c_response r, c_timestamp r)) ∧
  (cache_keys_unique (request_cache w) → cache_keys_unique (request_cache w')) ∧
  articles w' = articles w.
Proof.
  intros Hro w'. subst w'.
  unfold save_to_cache, get_cached_response. run.
  rewrite Hro. simpl.
  set (row := mkCacheRow url_hash url content None timestamp).
  split; [|split; [|split; [|done]]].
  - change url_hash with (c_url_hash row) at 1.
    by rewrite RequestHandlerFacts.select_by_hash_insert_or_replace.
  - unfold insert_or_replace. intros h r Hh Hu Hsel.
    apply select_by_hash_Some in Hsel as Hr. destruct Hr as [_ Hrh].
    erewrite select_by_hash_app_l; [done|].
    apply select_by_hash_filter_other; [done|]. simpl. split; congruence.
  - unfold insert_or_replace. intros [Hh Hu]. split.
    + rewrite fmap_app. apply NoDup_app. split; [by apply NoDup_fmap_filter|].
      split; [|apply NoDup_singleton].
      intros x (y & -> & Hy)%list_elem_of_fmap Hx%list_elem_of_singleton.
      apply list_elem_of_filter in Hy as [[Hy _] _]. by apply Hy.
    + rewrite fmap_app. apply NoDup_app. split; [by apply NoDup_fmap_filter|].
      split; [|apply NoDup_singleton].
      intros x (y & -> & Hy)%list_elem_of_fmap Hx%list_elem_of_singleton.
      apply list_elem_of_filter in Hy as [[_ Hy] _]. by apply Hy.
Qed.

(** Property X2.  [clear_old_cache] a second time at the same instant finds nothing to
    remove; and on a store that cannot be written it removes nothing and
    returns 0.  In no case does it touch [articles]. *)
Theorem clear_old_cache_again (hours : Z) (w : World) :
  let first := clear_old_cache hours w in
  let second := clear_old_cache hours first.2 in
  second.1 = 0%nat ∧
  request_cache second.2 = request_cache first.2 ∧
  articles second.2 = articles w ∧
  (db_readonly w = true →
   first.1 = 0%nat ∧ request_cache first.2 = request_cache w).
Proof.
  unfold clear_old_cache. run.
  destruct (db_readonly w) eqn:Hro; simpl; rewrite Hro; simpl; [done|].
  set (P := λ r : CacheRow, ¬ c_timestamp r < cutoff_time hours (clock w)).
  assert (Hid : filter P (filter P (request_cache w)) = filter P (request_cache w)).
  { apply list_filter_filter_l. done. }
  rewrite Hid. split; [lia|]. done.
Qed.

(** *** Keys and ids through [save_articles] *)

Lemma articles_after_save arts w :
  articles (save_articles arts w).2 =
  foldl (save_step (db_readonly w)) (articles w) arts.
Proof.
  destruct arts as [|a arts]; [done|].
  unfold save_articles, bind. by rewrite DatabaseFacts.save_loop_eq.
Qed.

Lemma upsert_has_url new tbl u :
  a_url new = Some u → ∃ row, row ∈ (upsert new tbl).1 ∧ a_url row = Some u.
Proof.
  intros Hu. unfold upsert.
  destruct (on_conflict_update new tbl) as [tbl'|] eqn:Hc; simpl.
  - apply DatabaseFacts.on_conflict_update_Some in Hc
      as (l1 & old & l2 & -> & -> & _).
    exists (with_id (a_id old) new). split; [|done].
    apply elem_of_app. right. by left.
  - exists (with_id (next_rowid tbl) new). split; [|done].
    apply elem_of_app. right. by left.
Qed.

Lemma save_fold_has_url ro arts : ∀ tbl u,
  (∃ row, row ∈ tbl ∧ a_url row = Some u) →
  ∃ row, row ∈ foldl (save_step ro) tbl arts ∧ a_url row = Some u.
Proof.
  intros tbl u (row & Hin & Hu).
  destruct (DatabaseFacts.save_fold_keeps ro arts tbl row Hin)
    as (row' & Hin' & _ & Hu').
  exists row'. split; [done | congruence].
Qed.

(** Property X3.  What is saved is known to the next run: the URLs [get_existing_urls]
    returned before the batch are returned after it, and so is the URL of
    every record the store has taken; a scraper made then starts with
    exactly these URLs as visited. *)
Theorem saved_urls_seed_visited (arts : list Article) (w : World) :
  let w' := (save_articles arts w).2 in
  let urls := (get_existing_urls w').1 in
  (∀ u, u ∈ (get_existing_urls w).1 → u ∈ urls) ∧
  (db_readonly w = false →
   ∀ article new u, article ∈ arts → insert_values article = Some new →
                    a_url new = Some u → u ∈ urls) ∧
  visited_urls (AINewsScraper.init w').2 = urls.
Proof.
  intros w' urls. subst urls w'.
  unfold get_existing_urls, AINewsScraper.init, get_existing_urls. run.
  rewrite articles_after_save.
  split; [|split; [|done]].
  - intros u (row & Hin & Hu)%elem_of_list_to_set%list_elem_of_omap.
    apply elem_of_list_to_set, list_elem_of_omap.
    apply save_fold_has_url. eauto.
  - intros Hro article new u Hin Hv Hu. rewrite Hro.
    apply elem_of_list_to_set, list_elem_of_omap.
    apply list_elem_of_split in Hin as (l1 & l2 & ->).
    rewrite foldl_app. simpl. apply save_fold_has_url.
    unfold save_step at 2. rewrite Hv. by apply upsert_has_url.
Qed.

Lemma max_rowid_bound tbl r : r ∈ tbl → a_id r < next_rowid tbl.
Proof.
  unfold next_rowid. induction tbl as [|x tbl IH]; [by intros ?%elem_of_nil|].
  intros [->|Hin]%elem_of_cons; simpl.
  - destruct (max_rowid tbl); lia.
  - specialize (IH Hin). destruct (max_rowid tbl) eqn:E; [lia|].
    destruct tbl; [by apply elem_of_nil in Hin | discriminate E].
Qed.

Lemma upsert_ids new tbl :
  NoDup (a_id <$> tbl) → NoDup (a_id <$> (upsert new tbl).1).
Proof.
  intros Hnd. unfold upsert.
  destruct (on_conflict_update new tbl) as [tbl'|] eqn:Hc; simpl.
  - apply DatabaseFacts.on_conflict_update_Some in Hc
      as (l1 & old & l2 & -> & -> & _).
    by rewrite fmap_app, fmap_cons in *.
  - rewrite fmap_app. apply NoDup_app. split; [done|].
    split; [|apply NoDup_singleton].
    intros x (r & -> & Hr)%list_elem_of_fmap Hx%list_elem_of_singleton.
    simpl in Hx. apply max_rowid_bound in Hr. lia.
Qed.

Lemma upsert_length new tbl : (length tbl ≤ length (upsert new tbl).1)%nat.
Proof.
  unfold upsert.
  destruct (on_conflict_update new tbl) as [tbl'|] eqn:Hc; simpl.
  - apply DatabaseFacts.on_conflict_update_Some in Hc
      as (l1 & old & l2 & -> & -> & _).
    rewrite !length_app. simpl. lia.
  - rewrite length_app. simpl. lia.
Qed.

(** Property X4.  The primary key through [save_articles]: the ids stay unique, no row
    is removed, and a row that was there keeps its id and its key. *)
Theorem save_articles_keeps_ids (arts : list Article) (w : World) :
  let w' := (save_articles arts w).2 in
  (NoDup (a_id <$> articles w) → NoDup (a_id <$> articles w')) ∧
  (length (articles w) ≤ length (articles w'))%nat ∧
  (∀ old, old ∈ articles w →
     ∃ row, row ∈ articles w' ∧ a_id row = a_id old ∧ a_url row = a_url old).
Proof.
  intros w'. subst w'. rewrite articles_after_save.
  generalize (articles w). generalize (db_readonly w). intros ro tbl.
  split; [|split].
  - revert tbl. induction arts as [|a arts IH]; intros tbl Hnd; simpl; [done|].
    apply IH. unfold save_step. destruct ro; [done|].
    destruct (insert_values a); [by apply upsert_ids | done].
  - revert tbl. induction arts as [|a arts IH]; intros tbl; simpl; [done|].
    etrans; [|apply IH]. unfold save_step. destruct ro; [done|].
    destruct (insert_values a); [apply upsert_length | done].
  - intros old. apply DatabaseFacts.save_fold_keeps.
Qed.

(** *** Which records the store takes *)

Lemma well_formed_taken article :
  well_formed article →
  ∃ new, insert_values article = Some new ∧
         article !! "title" = Some (PyStr (a_title new)) ∧
         (article !! "keywords" = None ∨ article !! "keywords" = Some PyNone →
          a_keywords new = Some "").
Proof.
  intros ([t Ht] & [c Hc] & [u Hu] & [p Hp] & [s Hs] & [d Hd] & Hk).
  unfold insert_values. rewrite Ht, Hc, Hu, Hp, Hs, Hd. simpl.
  destruct (article !! "keywords") as [[|k|]|] eqn:Hkw; simpl;
    try done; eexists; (split; [done|]); simpl; (split; [done|]);
    intros [?|?]; done.
Qed.

Lemma missing_key_rejected article key :
  key ∈ ["title"; "content"; "url"; "published_date"; "source"; "scrape_date"] →
  article !! key = None → insert_values article = None.
Proof.
  intros Hkey Hmiss. unfold insert_values.
  repeat (apply elem_of_cons in Hkey as [->|Hkey];
          [rewrite Hmiss; simpl;
           repeat (match goal with
                   | |- context [article !! ?k] => destruct (article !! k); simpl
                   end); done|]).
  by apply elem_of_nil in Hkey.
Qed.

(** Property X5.  A batch of articles as the extractor builds them is saved whole on a
    store that can be written: the count is the length of the batch and no
    error is logged; an article without [keywords], or with [None] there,
    is stored with the empty string.  A record that lacks one of the six
    other keys is never taken. *)
Theorem well_formed_batch_saved (arts : list Article) (w : World) :
  db_readonly w = false →
  Forall well_formed arts →
  let r := save_articles arts w in
  r.1 = length arts ∧
  count_log (ERROR, ErrorSavingArticle) (log r.2) =
    count_log (ERROR, ErrorSavingArticle) (log w) ∧
  (∀ article, article ∈ arts →
     ∃ new, insert_values article = Some new ∧
            article !! "title" = Some (PyStr (a_title new)) ∧
            (article !! "keywords" = None ∨ article !! "keywords" = Some PyNone →
             a_keywords new = Some "")) ∧
  (∀ article key,
     key ∈ ["title"; "content"; "url"; "published_date"; "source"; "scrape_date"] →
     article !! key = None → ¬ accepted (db_readonly w) article).
Proof.
  intros Hro Hall r. subst r.
  assert (Hacc : filter (accepted (db_readonly w)) arts = arts).
  { rewrite Hro. clear Hro. induction Hall as [|a arts Ha _ IH]; [done|].
    rewrite filter_cons_True, IH; [done|].
    split; [done|]. destruct (well_formed_taken a Ha) as (new & -> & _). done. }
  assert (Hrej : filter (λ a, ¬ accepted (db_readonly w) a) arts = []).
  { rewrite Hro. clear Hro Hacc. induction Hall as [|a arts Ha _ IH]; [done|].
    rewrite filter_cons_False; [done|]. intros Hn. apply Hn.
    split; [done|]. destruct (well_formed_taken a Ha) as (new & -> & _). done. }
  split; [|split; [|split]].
  - destruct arts as [|a arts]; [done|].
    unfold save_articles, bind. rewrite DatabaseFacts.save_loop_eq.
    simpl fst. by rewrite Hacc.
  - destruct arts as [|a arts]; [done|].
    unfold save_articles, bind. rewrite DatabaseFacts.save_loop_eq.
    rewrite Hrej. simpl. unfold count_log. by rewrite filter_cons_False.
  - intros article Hin. apply well_formed_taken.
    by apply (proj1 (Forall_forall _ _) Hall).
  - intros article key Hkey Hmiss [_ Hsome].
    rewrite (missing_key_rejected article key Hkey Hmiss) in Hsome.
    by destruct Hsome.
Qed.

(** Property X6.  [clear_all_cache] empties the database tier and nothing else: the
    files of the cache directory are all there, so a lookup afterwards
    answers with the fresh file of the URL, if it has one.  On a store that
    cannot be written it removes nothing and returns 0. *)
Theorem clear_all_cache_leaves_files (w : World) :
  let r := clear_all_cache w in
  (db_readonly w = false →
   r.1 = length (request_cache w) ∧ request_cache r.2 = [] ∧
   ∀ md5 url, (RequestHandler.get_cached_response md5 url r.2).1 =
              fresh_file md5 url w) ∧
  (db_readonly w = true → r.1 = 0%nat ∧ request_cache r.2 = request_cache w) ∧
  articles r.2 = articles w ∧
  files r.2 = files w.
Proof.
  intros r. subst r. unfold clear_all_cache, delete_from. run.
  destruct (db_readonly w) eqn:Hro; simpl.
  - split; [done|]. done.
  - split; [|done]. intros _. split; [done|]. split; [done|].
    intros md5 url. rewrite RequestHandlerFacts.get_cached_response_result.
    unfold fresh_file, fresh_row. simpl.
    by destruct (files w !! RequestHandler.get_cache_path md5 url ≫= _).
Qed.

End DatabaseMore.

(** * Further facts about request_handler.py *)

Module RequestHandlerMore.
Import RequestHandler.

Section more.

Context (md5 : string → string).
Context (server : nat → string → Response).
Context (jitter : nat → Z).

(** What [save_to_cache] leaves, tier by tier. *)
Lemma save_to_cache_tiers url content w :
  files (save_to_cache md5 url content w).2 =
    (if fs_readonly w then files w
     else <[get_cache_path md5 url := mkFile (Some content) (clock w)]> (files w)) ∧
  request_cache (save_to_cache md5 url content w).2 =
    (if db_readonly w then request_cache w
     else Database.insert_or_replace
            (mkCacheRow (md5 url) url content None (clock w `div` 1000))
            (request_cache w)) ∧
  clock (save_to_cache md5 url content w).2 = clock w.
Proof.
  unfold save_to_cache, Database.save_to_cache. run.
  destruct (fs_readonly w); simpl; destruct (db_readonly w); simpl; done.
Qed.


(** [get_page_content] on a URL that is not visited and not cached. *)
Lemma get_page_content_miss url (visited : gset string) w :
  url ∉ visited →
  truthy (get_cached_response md5 url w).1 = false →
  get_page_content md5 server jitter url visited w =
  let wf := set_log (cons (INFO, FetchingURL url)) (get_cached_response md5 url w).2 in
  let (outcome, ws) := session_get server url wf in
  match outcome with
  | Got response =>
      if raise_for_status (status_code response) then
        (None, set_log (cons (ERROR, ErrorFetching url)) ws)
      else
        let wt := (save_to_cache md5 url (text response) ws).2 in
        let delay := 1500 + jitter (draws wt) `mod` 2001 in
        (Some (text response),
         set_naps (cons delay) (set_clock (Z.add delay) (set_draws S wt)))
  | MaxRetryError => (None, set_log (cons (ERROR, ErrorFetching url)) ws)
  end.
Proof.
  intros Hnew Hmiss. unfold get_page_content.
  rewrite bool_decide_false by done. unfold bind at 1.
  destruct (get_cached_response md5 url w) as [c wc]; simpl in Hmiss.
  rewrite Hmiss. step. simpl snd.
  destruct (session_get server url _) as [[response|] ws]; [|done].
  destruct (raise_for_status (status_code response)); [done|].
  by destruct (save_to_cache md5 url (text response) ws) as [[] wt].
Qed.

(** Property X8.  A hit of the cache costs nothing: the content is returned and the
    state differs by the log only, so no request is sent, no sleep is
    taken and no tier is written. *)
Theorem cache_hit_is_quiet (url : string) (visited : gset string) (w : World) :
  url ∉ visited →
  truthy (get_cached_response md5 url w).1 = true →
  let r := get_page_content md5 server jitter url visited w in
  r.1 = (get_cached_response md5 url w).1 ∧
  same_but_log w r.2 ∧
  requests r.2 = requests w ∧ naps r.2 = naps w ∧ clock r.2 = clock w ∧
  files r.2 = files w ∧ request_cache r.2 = request_cache w.
Proof.
  intros Hnew Hhit r. subst r. rewrite RequestHandlerFacts.get_page_content_hit by done.
  destruct (RequestHandlerFacts.get_cached_response_world md5 url w) as (l & Hl & _).
  rewrite Hl. split; [done|]. split; [by exists l | done].
Qed.

(** The first attempt is the last when its status asks for no retry. *)
Lemma send_once r method url left k w :
  is_retry r method (status_code (server (length (requests w)) url)) = false →
  send server r method url left k w =
  (Got (server (length (requests w)) url), set_requests (cons url) w).
Proof. intros Hno. destruct left; simpl; run; by rewrite Hno. Qed.

(** Property X9.  An error status that is not retried: one request, [None], and nothing
    is cached, so the next fetch of the URL goes to the network again; the
    politeness sleep is not taken either. *)
Theorem http_error_is_not_cached (url : string) (visited : gset string) (w : World) :
  url ∉ visited →
  truthy (get_cached_response md5 url w).1 = false →
  let status := status_code (server (length (requests w)) url) in
  is_retry create_session "GET" status = false →
  raise_for_status status = true →
  let r := get_page_content md5 server jitter url visited w in
  r.1 = None ∧
  requests r.2 = url :: requests w ∧
  files r.2 = files w ∧ request_cache r.2 = request_cache w ∧
  naps r.2 = naps w ∧
  ((ERROR, ErrorFetching url) ∈ log r.2).
Proof.
  intros Hnew Hmiss status Hno Hraise r. subst r.
  rewrite get_page_content_miss by done.
  destruct (RequestHandlerFacts.get_cached_response_world md5 url w) as (l & Hl & _).
  rewrite Hl. cbv zeta. unfold session_get.
  rewrite send_once by done. simpl requests. fold status. rewrite Hraise.
  simpl. repeat (split; [done|]). by left.
Qed.

(** Property X10.  A fetch that succeeds at the first attempt: one request, the body as
    it came, even empty, and one sleep of 1.5 to 3.5 seconds after the
    cache is written. *)
Theorem fetch_success_is_polite (url : string) (visited : gset string) (w : World) :
  url ∉ visited →
  truthy (get_cached_response md5 url w).1 = false →
  let reply := server (length (requests w)) url in
  is_retry create_session "GET" (status_code reply) = false →
  raise_for_status (status_code reply) = false →
  let r := get_page_content md5 server jitter url visited w in
  r.1 = Some (text reply) ∧
  requests r.2 = url :: requests w ∧
  ∃ delay, naps r.2 = delay :: naps w ∧ 1500 ≤ delay ≤ 3500 ∧
           clock r.2 = delay + clock w.
Proof.
  intros Hnew Hmiss reply Hno Hok r. subst r.
  rewrite get_page_content_miss by done.
  destruct (RequestHandlerFacts.get_cached_response_world md5 url w) as (l & Hl & _).
  rewrite Hl. cbv zeta. unfold session_get.
  rewrite send_once by done. simpl requests. fold reply. rewrite Hok.
  set (ws := set_requests (cons url) _).
  pose proof (ScraperFacts.save_to_cache_net md5 url (text reply) ws) as [Hr _].
  pose proof (save_to_cache_tiers url (text reply) ws) as (_ & _ & Hk).
  assert (Hn : naps (save_to_cache md5 url (text reply) ws).2 = naps ws).
  { unfold save_to_cache, Database.save_to_cache. run.
    destruct (fs_readonly w); simpl; destruct (db_readonly w); simpl; done. }
  set (wt := (save_to_cache md5 url (text reply) ws).2) in *.
  simpl. split; [done|]. split; [by rewrite Hr|].
  eexists. split; [by rewrite Hn|]. rewrite Hk.
  pose proof (Z.mod_pos_bound (jitter (draws wt)) 2001 ltac:(lia)).
  split; [lia | done].
Qed.

End more.

Lemma clear_old_file_cache_eq days w :
  clear_old_file_cache days w =
  let old := filter (λ kv : string * File, f_mtime kv.2 < clock w - days * 86400000)
                    (files w) in
  if fs_readonly w && negb (bool_decide (old = ∅)) then
    (0%nat, set_log (cons (INFO, ClearedFileCache 0))
              (set_log (cons (ERROR, ErrorClearingFileCache)) w))
  else
    (size old,
     set_log (cons (INFO, ClearedFileCache (size old)))
       (set_files (filter (λ kv : string * File,
                             ¬ f_mtime kv.2 < clock w - days * 86400000)) w)).
Proof.
  unfold clear_old_file_cache. run.
  by destruct (fs_readonly w && negb (bool_decide (_ = ∅))).
Qed.

(** Property X11.  The sweep of the cache directory removes the files older than [days]
    days and no other: what is left is part of what was there, the count
    is the number of files gone, and a second sweep at the same instant
    removes nothing.  It touches no table.  When the directory cannot be
    written it removes nothing and returns 0. *)
Theorem clear_old_file_cache_sweep (days : Z) (w : World) :
  let r := clear_old_file_cache days w in
  let again := clear_old_file_cache days r.2 in
  files r.2 ⊆ files w ∧
  (r.1 + size (files r.2) = size (files w))%nat ∧
  (∀ name f, files r.2 !! name = Some f → fs_readonly w = false →
             ¬ f_mtime f < clock w - days * 86400000) ∧
  again.1 = 0%nat ∧ files again.2 = files r.2 ∧
  articles r.2 = articles w ∧ request_cache r.2 = request_cache w ∧
  (fs_readonly w = true → r.1 = 0%nat ∧ files r.2 = files w).
Proof.
  intros r again. subst again r.
  rewrite (clear_old_file_cache_eq days (clear_old_file_cache days w).2).
  rewrite (clear_old_file_cache_eq days w). cbv zeta.
  set (P := λ kv : string * File, f_mtime kv.2 < clock w - days * 86400000).
  set (Q := λ kv : string * File, ¬ f_mtime kv.2 < clock w - days * 86400000).
  assert (Hsize : (size (filter P (files w)) + size (filter Q (files w)) =
                   size (files w))%nat).
  { rewrite <- map_size_disj_union by apply map_disjoint_filter_complement.
    by rewrite map_filter_union_complement. }
  assert (Hnone : filter P (filter Q (files w)) = ∅).
  { apply map_empty_filter. apply map_Forall_lookup. intros i x.
    rewrite map_lookup_filter_Some. unfold P, Q. simpl. tauto. }
  assert (Hid : filter Q (filter Q (files w)) = filter Q (files w)).
  { apply map_filter_id. intros i x. rewrite map_lookup_filter_Some. tauto. }
  assert (HQ : filter P (files w) = ∅ → filter Q (files w) = files w).
  { intros Hold. apply map_filter_id. intros i x Hix.
    destruct (decide (P (i, x))) as [HP|HP]; [|done].
    assert (Hin : filter P (files w) !! i = Some x)
      by by apply map_lookup_filter_Some.
    rewrite Hold in Hin. by apply lookup_empty_Some in Hin. }
  destruct (fs_readonly w) eqn:Hfs; simpl.
  - case_bool_decide as Hold; simpl; rewrite Hfs; simpl; fold P Q.
    + rewrite Hnone. rewrite bool_decide_true by done. simpl.
      rewrite Hid, Hold, (HQ Hold), map_size_empty. done.
    + rewrite bool_decide_false by done. simpl. done.
  - rewrite Hfs. simpl. fold P Q. rewrite Hnone, Hid, map_size_empty.
    split; [apply map_filter_subseteq|]. split; [lia|].
    split; [|done].
    intros name f Hf _. by apply map_lookup_filter_Some in Hf as [_ ?].
Qed.

End RequestHandlerMore.

(** * Further facts about scraper.py, main.py and db/reset_db.py *)

Module ScraperMore.
Import RequestHandler AINewsScraper.

Section more.

Context (md5 : string → string).
Context (server : nat → string → Response).
Context (jitter : nat → Z).
Context (extract_article_links : string → option (list Link)).
Context (extract_article_data : string → string → string → option Article).

(** Property X12.  A URL is marked visited as soon as its content is fetched, whatever
    the extractor makes of it, and is not marked when the fetch gives
    nothing; a URL that is visited already gives [None] without a
    request. *)
Theorem scrape_article_content_marks (url fallback_title : string) (w : World) :
  let r := scrape_article_content md5 server jitter extract_article_data
             url fallback_title w in
  let fetched := get_page_content md5 server jitter url (visited_urls w) w in
  (url ∈ visited_urls w →
   r.1 = None ∧ visited_urls r.2 = visited_urls w ∧ requests r.2 = requests w) ∧
  (∀ html, fetched.1 = Some html → html ≠ "" →
     r.1 = extract_article_data url html fallback_title ∧
     visited_urls r.2 = {[url]} ∪ visited_urls w) ∧
  (truthy fetched.1 = false →
   r.1 = None ∧ visited_urls r.2 = visited_urls w).
Proof.
  intros r fetched. subst r fetched. unfold scrape_article_content. step.
  destruct (get_page_content md5 server jitter url (visited_urls w) w)
    as [content w1] eqn:Hget.
  destruct (ScraperFacts.get_page_content_net md5 server jitter url
              (visited_urls w) w content w1 Hget) as (Hv & k & Hr & Hk).
  simpl. split; [|split].
  - intros Hin. rewrite ScraperFacts.get_page_content_visited in Hget by done.
    injection Hget as <- <-. done.
  - intros html -> Hne. rewrite bool_decide_true by done. simpl.
    by rewrite Hv.
  - intros Hfalsy. destruct content as [html|]; simpl in *; [|done].
    by rewrite Hfalsy.
Qed.

(** Property X13.  The loop over the links keeps to the cap: the count never goes down,
    never beyond the cap once below it, and the articles gathered are the
    ones there were followed by one new article per unit of the count. *)
Theorem for_articles_cap links : ∀ max_articles_per_page processed_count articles_data w,
  let r := for_articles md5 server jitter extract_article_data links
             max_articles_per_page processed_count articles_data w in
  (processed_count ≤ r.1.1)%nat ∧
  Z.of_nat r.1.1 ≤ Z.max max_articles_per_page (Z.of_nat processed_count) ∧
  ∃ extra, r.1.2 = articles_data ++ extra ∧
           length extra = (r.1.1 - processed_count)%nat.
Proof.
  induction links as [|link rest IH]; intros m n acc w; simpl.
  - split; [done|]. split; [lia|]. exists []. by rewrite app_nil_r, Nat.sub_diag.
  - case_bool_decide as Hcap; simpl.
    { split; [done|]. split; [lia|]. exists []. by rewrite app_nil_r, Nat.sub_diag. }
    step. case_bool_decide; [apply IH|].
    destruct (scrape_article_content md5 server jitter extract_article_data
                (l_url link) (l_title link) w) as [[data|] w1]; [|apply IH].
    case_bool_decide; [|apply IH].
    destruct (IH m (S n) (acc ++ [data])
                (set_log (cons (INFO, SuccessfullyScraped (l_title link))) w1))
      as (Hle & Hmax & extra & Hdata & Hlen).
    split; [lia|]. split; [lia|].
    exists (data :: extra). split; [by rewrite Hdata, <- (assoc_L (++))|].
    simpl. lia.
Qed.

Lemma scrape_page_grows use_ai_term max_articles_per_page page articles_data w :
  let r := scrape_page md5 server jitter extract_article_links
             extract_article_data use_ai_term max_articles_per_page
             page articles_data w in
  ∃ extra, r.1.2 = articles_data ++ extra ∧
           (length extra ≤ Z.to_nat max_articles_per_page)%nat.
Proof.
  intros r. subst r. rewrite ScraperFacts.scrape_page_eq. cbv zeta.
  assert (Hsame : ∃ extra : list Article, articles_data = articles_data ++ extra ∧
                    (length extra ≤ Z.to_nat max_articles_per_page)%nat).
  { exists []. rewrite app_nil_r. split; [done | simpl; lia]. }
  destruct (get_page_content _ _ _ _ _ _) as [[html|] w1]; [|done].
  case_bool_decide; [|done].
  destruct (extract_article_links html) as [[|link links]|]; [done| |done].
  pose proof (for_articles_cap (link :: links) max_articles_per_page 0%nat
                articles_data w1) as (_ & Hmax & extra & Hdata & Hlen).
  destruct (for_articles _ _ _ _ _ _ _ _ _) as [[n data] w2]. simpl in *.
  assert (Hb : (length extra ≤ Z.to_nat max_articles_per_page)%nat) by lia.
  case_bool_decide; simpl; eauto.
Qed.

Lemma for_pages_grows use_ai_term max_articles_per_page pages : ∀ articles_data w,
  (length (for_pages md5 server jitter extract_article_links extract_article_data
             use_ai_term max_articles_per_page pages articles_data w).1
   ≤ length articles_data + length pages * Z.to_nat max_articles_per_page)%nat.
Proof.
  induction pages as [|page rest IH]; intros acc w.
  - simpl. lia.
  - rewrite ScraperFacts.for_pages_cons.
    pose proof (scrape_page_grows use_ai_term max_articles_per_page page acc w)
      as (extra & Hdata & Hlen).
    destruct (scrape_page _ _ _ _ _ _ _ _ _ _) as [[flow data] w1].
    simpl in *. subst data.
    destruct flow.
    + etrans; [apply IH|]. rewrite length_app. lia.
    + simpl. rewrite length_app. lia.
Qed.

(** Property X14.  A run saves at most [pages] times [max_articles_per_page] articles; it
    saves none when there is no page or when the cap is not positive. *)
Theorem run_is_bounded (pages : nat) (use_ai_term : bool)
    (max_articles_per_page : Z) (w : World) :
  ((scrape_khaleejtimes_ai md5 server jitter extract_article_links
      extract_article_data pages use_ai_term max_articles_per_page w).1
   ≤ pages * Z.to_nat max_articles_per_page)%nat.
Proof.
  unfold scrape_khaleejtimes_ai, bind.
  pose proof (for_pages_grows use_ai_term max_articles_per_page (seq 1 pages) [] w)
    as Hlen.
  destruct (for_pages _ _ _ _ _ _ _ _ _ _) as [data w1]. simpl in Hlen.
  rewrite length_seq in Hlen.
  assert (Hsave : ((Database.save_articles data w1).1 ≤ length data)%nat).
  { destruct data as [|a data]; [done|].
    unfold Database.save_articles, bind. rewrite DatabaseFacts.save_loop_eq.
    simpl fst. apply length_filter. }
  lia.
Qed.

(** Property X15.  A page that cannot be fetched, and a page the extractor fails on, are
    skipped: the crawl goes on with the pages that remain and with the
    articles gathered so far. *)
Theorem failed_page_is_skipped (use_ai_term : bool) (max_articles_per_page : Z)
    (page : nat) (rest : list nat) (articles_data : list Article) (w : World) :
  let url := page_url use_ai_term page in
  let crawl := for_pages md5 server jitter extract_article_links
                 extract_article_data use_ai_term max_articles_per_page in
  let fetched := get_page_content md5 server jitter url (visited_urls w)
                   (set_log (cons (INFO, ScrapingPage page url)) w) in
  (truthy fetched.1 = false →
   crawl (page :: rest) articles_data w = crawl rest articles_data fetched.2) ∧
  (∀ html, fetched.1 = Some html → html ≠ "" →
     extract_article_links html = None →
     crawl (page :: rest) articles_data w =
     crawl rest articles_data
       (set_log (cons (ERROR, ErrorProcessingPage page)) fetched.2)).
Proof.
  intros url crawl fetched. subst crawl fetched.
  rewrite ScraperFacts.for_pages_cons, ScraperFacts.scrape_page_eq.
  fold url. cbv zeta.
  destruct (get_page_content _ _ _ _ _ _) as [content w1]. simpl.
  split.
  - intros Hfalsy. destruct content as [html|]; simpl in *; [|done].
    by rewrite Hfalsy.
  - intros html -> Hne Hraise. rewrite bool_decide_true by done.
    by rewrite Hraise.
Qed.

(** Property X16.  A scraper made on a store requests none of the URLs stored there,
    whatever the run. *)
Theorem stored_urls_are_not_requested (pages : nat) (use_ai_term : bool)
    (max_articles_per_page : Z) (w : World) (row : ArticleRow) (u : string) :
  row ∈ articles w → a_url row = Some u →
  let r := scrape_khaleejtimes_ai md5 server jitter extract_article_links
             extract_article_data pages use_ai_term max_articles_per_page
             (init w).2 in
  ∃ new, requests r.2 = new ++ requests w ∧ u ∉ new.
Proof.
  intros Hrow Hu r. subst r.
  unfold scrape_khaleejtimes_ai, bind.
  set (w0 := (init w).2).
  assert (Hin : u ∈ visited_urls w0).
  { subst w0. unfold init, Database.get_existing_urls. run.
    apply elem_of_list_to_set, list_elem_of_omap. eauto. }
  pose proof (ScraperFacts.for_pages_dedup md5 server jitter extract_article_links
                extract_article_data use_ai_term max_articles_per_page
                (seq 1 pages) [] w0) as [_ (new & Hr & Hnew)].
  destruct (for_pages _ _ _ _ _ _ _ _ _ _) as [data w1]. simpl in *.
  destruct (ScraperFacts.save_articles_net data w1) as [Hr' _].
  exists new. split; [by rewrite Hr', Hr|].
  intros Hu'. by apply (Hnew u).
Qed.

End more.

End ScraperMore.

Module ApiFacts.
Import Api.

(** Property X17.  The endpoint answers 200 exactly when it has removed a row, with the
    number of rows removed; in every other case it answers 500, an empty
    cache included: the 404 it raises there is caught by its own [except].
    The table is empty afterwards whenever the store can be written. *)
Theorem clear_all_cache_answers (w : World) :
  let r := clear_all_cache w in
  (∀ n, r.1 = Cleared n ↔
        db_readonly w = false ∧ n = length (request_cache w) ∧ n ≠ 0%nat) ∧
  (∀ status, r.1 = HTTPException status → status = 500) ∧
  (request_cache w = [] → r.1 = HTTPException 500) ∧
  (db_readonly w = false → request_cache r.2 = []) ∧
  articles r.2 = articles w.
Proof.
  intros r. subst r. unfold clear_all_cache, clear_all_cache_try, Database.delete_from.
  run. destruct (db_readonly w) eqn:Hro; simpl.
  - split; [by intros n; split; [|intros [? _]]|].
    split; [by intros status [= <-]|]. done.
  - case_bool_decide as Hn; simpl.
    + split; [intros n; split; [done | intros (_ & -> & Hne); done]|].
      split; [by intros status [= <-]|]. done.
    + split.
      { intros n. split; [by intros [= <-] | by intros (_ & -> & _)]. }
      split; [done|]. split; [|done].
      intros Hnil. rewrite Hnil in Hn. done.
Qed.

End ApiFacts.

Module ResetDbFacts.
Import ResetDb.

(** Property X18.  With the file there: mode ["delete"] removes it when it can and
    returns [True], after which any reset returns [False]; any other mode
    empties both tables, keeps the file and returns [True] when the tables
    can be written, so that the next scraper starts with no visited URL,
    and does the same when run again.  Without the file every mode returns
    [False] and changes nothing but the log. *)
Theorem reset_database_modes (mode : string) (d : Disk) (w : World) :
  db_file d = Some w →
  (mode = "delete" → removable d = true →
   (reset_database mode d).1 = true ∧
   db_file (reset_database mode d).2 = None ∧
   ∀ mode', (reset_database mode' (reset_database mode d).2).1 = false) ∧
  (mode ≠ "delete" → db_readonly w = false →
   (reset_database mode d).1 = true ∧
   (∃ w', db_file (reset_database mode d).2 = Some w' ∧
          articles w' = [] ∧ request_cache w' = [] ∧ files w' = files w ∧
          (Database.get_existing_urls w').1 = ∅) ∧
   (reset_database mode (reset_database mode d).2).1 = true) ∧
  (mode ≠ "delete" → db_readonly w = true →
   (reset_database mode d).1 = false ∧ db_file (reset_database mode d).2 = Some w) ∧
  (∀ d0, db_file d0 = None →
     (reset_database mode d0).1 = false ∧ db_file (reset_database mode d0).2 = None).
Proof.
  intros Hfile. unfold reset_database. rewrite Hfile.
  split; [|split; [|split]].
  - intros -> Hrm. rewrite bool_decide_true by done. rewrite Hrm. simpl.
    done.
  - intros Hmode Hro. rewrite bool_decide_false by done.
    unfold clear_tables, Database.delete_from.
    repeat (rewrite Hro; simpl).
    split; [done|]. split; [|done].
    eexists. split; [done|]. done.
  - intros Hmode Hro. rewrite bool_decide_false by done.
    unfold clear_tables, Database.delete_from. rewrite Hro. simpl. done.
  - intros d0 Hnone. by rewrite Hnone.
Qed.

End ResetDbFacts.

(** * The further theorems on concrete runs *)

Module MoreRuns.
Import Scenario MoreScenario.

(** A new row for the hash ["h2"] in the cache [aged]: it replaces the old
    one, and the row of ["h3"] is read as before. *)
Lemma cache_row_round_trip_witness :
  db_readonly aged = false ∧
  (Database.get_cached_response "h2"
     (Database.save_to_cache "h2" "u2" "new" 1700000000 aged).2).1 =
    Some ("new", 1700000000) ∧
  (Database.get_cached_response "h3"
     (Database.save_to_cache "h2" "u2" "new" 1700000000 aged).2).1 =
    Some ("r3", 1700000000 - 60).
Proof.
  destruct (DatabaseMore.cache_row_round_trip "h2" "u2" "new" 1700000000 aged eq_refl)
    as (Hnew & Hother & _).
  split; [reflexivity|]. split; [exact Hnew|].
  apply (Hother "h3" (mkCacheRow "h3" "u3" "r3" None (1700000000 - 60)));
    [discriminate | discriminate | reflexivity].
Defined.

(** The sweep of the database on the store [locked]. *)
Lemma clear_old_cache_again_witness :
  db_readonly locked = true ∧
  (Database.clear_old_cache 1 locked).1 = 0%nat ∧
  request_cache (Database.clear_old_cache 1 locked).2 = request_cache locked.
Proof.
  destruct (DatabaseMore.clear_old_cache_again 1 locked) as (_ & _ & _ & Hro).
  split; [reflexivity|]. exact (Hro eq_refl).
Defined.

(** After the batch [batch] on [stored], [a2] is a URL of the store. *)
Lemma saved_urls_seed_visited_witness :
  db_readonly stored = false ∧
  a2 ∈ (Database.get_existing_urls (Database.save_articles batch stored).2).1.
Proof.
  destruct (DatabaseMore.saved_urls_seed_visited batch stored) as (_ & Hnew & _).
  split; [reflexivity|].
  apply (Hnew eq_refl (article "title 2" "text 2" a2)
           (mkArticleRow 0 "title 2" (Some "text 2") (Some a2)
              (Some "2025-01-01") (Some "Khaleej Times")
              (Some "2025-01-02 10:00:00") (Some "ai,news")) a2);
    [compute_done | vm_compute; reflexivity | reflexivity].
Defined.

(** The ids after the batch [batch] on [stored]. *)
Lemma save_articles_keeps_ids_witness :
  NoDup (a_id <$> articles stored) ∧
  NoDup (a_id <$> articles (Database.save_articles batch stored).2).
Proof.
  assert (Hnd : NoDup (a_id <$> articles stored)) by compute_done.
  destruct (DatabaseMore.save_articles_keeps_ids batch stored) as (Hids & _).
  split; [exact Hnd | exact (Hids Hnd)].
Defined.

(** The batch [clean_batch] on the empty store. *)
Lemma well_formed_batch_saved_witness :
  db_readonly w0 = false ∧
  Forall well_formed clean_batch ∧
  (Database.save_articles clean_batch w0).1 = 2%nat.
Proof.
  assert (Hwf : Forall well_formed clean_batch).
  { repeat constructor; try (eexists; vm_compute; reflexivity);
      vm_compute; discriminate. }
  destruct (DatabaseMore.well_formed_batch_saved clean_batch w0 eq_refl Hwf)
    as (Hcount & _).
  split; [reflexivity|]. split; [exact Hwf | exact Hcount].
Defined.

(** [clear_all_cache] on the cache [aged], then a lookup. *)
Lemma clear_all_cache_leaves_files_witness :
  db_readonly aged = false ∧
  (Database.clear_all_cache aged).1 = 3%nat ∧
  request_cache (Database.clear_all_cache aged).2 = [].
Proof.
  destruct (DatabaseMore.clear_all_cache_leaves_files aged) as (Hw & _).
  destruct (Hw eq_refl) as (Hn & Hempty & _).
  split; [reflexivity|]. split; [exact Hn | exact Hempty].
Defined.


(** A fetch of [a1] on the cache [tiers], whose database row is fresh. *)
Lemma cache_hit_is_quiet_witness :
  (a1 ∉ (∅ : gset string)) ∧
  truthy (RequestHandler.get_cached_response md5 a1 tiers).1 = true ∧
  (RequestHandler.get_page_content md5 site jitter a1 ∅ tiers).1 =
    Some "fresh text" ∧
  requests (RequestHandler.get_page_content md5 site jitter a1 ∅ tiers).2 = [].
Proof.
  assert (Hnew : a1 ∉ (∅ : gset string)) by compute_done.
  assert (Hhit : truthy (RequestHandler.get_cached_response md5 a1 tiers).1 = true)
    by (vm_compute; reflexivity).
  destruct (RequestHandlerMore.cache_hit_is_quiet md5 site jitter a1 ∅ tiers
              Hnew Hhit) as (Hres & _ & Hreq & _).
  split; [exact Hnew|]. split; [exact Hhit|].
  split; [rewrite Hres; vm_compute; reflexivity | exact Hreq].
Defined.

(** A fetch of the page that does not exist. *)
Lemma http_error_is_not_cached_witness :
  (gone ∉ (∅ : gset string)) ∧
  truthy (RequestHandler.get_cached_response md5 gone w0).1 = false ∧
  RequestHandler.status_code (site 0 gone) = 404 ∧
  (RequestHandler.get_page_content md5 site jitter gone ∅ w0).1 = None ∧
  request_cache (RequestHandler.get_page_content md5 site jitter gone ∅ w0).2 = [].
Proof.
  assert (Hnew : gone ∉ (∅ : gset string)) by compute_done.
  assert (Hmiss : truthy (RequestHandler.get_cached_response md5 gone w0).1 = false)
    by (vm_compute; reflexivity).
  destruct (RequestHandlerMore.http_error_is_not_cached md5 site jitter gone ∅ w0
              Hnew Hmiss eq_refl eq_refl) as (Hres & _ & _ & Hcache & _).
  split; [exact Hnew|]. split; [exact Hmiss|]. split; [reflexivity|].
  split; [exact Hres | exact Hcache].
Defined.

(** A fetch of [a2], whose body is empty. *)
Lemma fetch_success_is_polite_witness :
  (a2 ∉ (∅ : gset string)) ∧
  truthy (RequestHandler.get_cached_response md5 a2 w0).1 = false ∧
  RequestHandler.status_code (site 0 a2) = 200 ∧
  (RequestHandler.get_page_content md5 site jitter a2 ∅ w0).1 = Some "" ∧
  requests (RequestHandler.get_page_content md5 site jitter a2 ∅ w0).2 = [a2].
Proof.
  assert (Hnew : a2 ∉ (∅ : gset string)) by compute_done.
  assert (Hmiss : truthy (RequestHandler.get_cached_response md5 a2 w0).1 = false)
    by (vm_compute; reflexivity).
  destruct (RequestHandlerMore.fetch_success_is_polite md5 site jitter a2 ∅ w0
              Hnew Hmiss eq_refl eq_refl) as (Hres & Hreq & _).
  split; [exact Hnew|]. split; [exact Hmiss|]. split; [reflexivity|].
  split; [exact Hres | exact Hreq].
Defined.

(** The sweep of one day on the directory of [aged], and of [locked]. *)
Lemma clear_old_file_cache_sweep_witness :
  fs_readonly aged = false ∧
  files (RequestHandler.clear_old_file_cache 1 aged).2 !! "two-hours.html" =
    Some (mkFile (Some "x") (1700000000000 - 7200000)) ∧
  ¬ 1700000000000 - 7200000 < clock aged - 1 * 86400000 ∧
  fs_readonly locked = true ∧
  (RequestHandler.clear_old_file_cache 1 locked).1 = 0%nat ∧
  files (RequestHandler.clear_old_file_cache 1 locked).2 = files locked.
Proof.
  assert (Hf : files (RequestHandler.clear_old_file_cache 1 aged).2
                 !! "two-hours.html" =
               Some (mkFile (Some "x") (1700000000000 - 7200000)))
    by (vm_compute; reflexivity).
  destruct (RequestHandlerMore.clear_old_file_cache_sweep 1 aged)
    as (_ & _ & Hkept & _).
  destruct (RequestHandlerMore.clear_old_file_cache_sweep 1 locked)
    as (_ & _ & _ & _ & _ & _ & _ & Hro).
  split; [reflexivity|]. split; [exact Hf|].
  split; [exact (Hkept _ _ Hf eq_refl)|].
  split; [reflexivity|]. exact (Hro eq_refl).
Defined.

(** [a1] is fetched and marked though the extractor returns [None]. *)
Lemma scrape_article_content_marks_witness :
  (RequestHandler.get_page_content md5 site jitter a1 (visited_urls w0) w0).1 =
    Some "text of a1" ∧
  (AINewsScraper.scrape_article_content md5 site jitter no_data a1 "title 1" w0).1 =
    None ∧
  visited_urls
    (AINewsScraper.scrape_article_content md5 site jitter no_data a1 "title 1" w0).2 =
    {[a1]} ∪ visited_urls w0.
Proof.
  assert (Hget : (RequestHandler.get_page_content md5 site jitter a1
                    (visited_urls w0) w0).1 = Some "text of a1")
    by (vm_compute; reflexivity).
  destruct (ScraperMore.scrape_article_content_marks md5 site jitter no_data
              a1 "title 1" w0) as (_ & Hmark & _).
  destruct (Hmark "text of a1" Hget ltac:(discriminate)) as [Hres Hvis].
  split; [exact Hget|]. split; [exact Hres | exact Hvis].
Defined.

(** The site that is down: page 1 is skipped and the crawl goes on. *)
Lemma failed_page_is_skipped_witness :
  let crawl := AINewsScraper.for_pages md5 busy jitter extract_article_links
                 extract_article_data true 10 in
  let url := AINewsScraper.page_url true 1 in
  let fetched := RequestHandler.get_page_content md5 busy jitter url
                   (visited_urls w0)
                   (set_log (cons (INFO, ScrapingPage 1 url)) w0) in
  truthy fetched.1 = false ∧
  crawl [1; 2]%nat [] w0 = crawl [2%nat] [] fetched.2.
Proof.
  intros crawl url fetched.
  assert (Hfail : truthy fetched.1 = false) by (vm_compute; reflexivity).
  destruct (ScraperMore.failed_page_is_skipped md5 busy jitter
              extract_article_links extract_article_data true 10 1 [2%nat] [] w0)
    as (Hskip & _).
  split; [exact Hfail | exact (Hskip Hfail)].
Defined.

(** A scraper made on the store [w1], where [a1] is stored. *)
Lemma stored_urls_are_not_requested_witness :
  mkArticleRow 1 "title 1" (Some "text of a1") (Some a1) (Some "2025-01-01")
    (Some "Khaleej Times") (Some "2025-01-02 10:00:00") (Some "ai,news")
    ∈ articles w1 ∧
  ∃ new,
    requests (AINewsScraper.scrape_khaleejtimes_ai md5 site jitter
                extract_article_links extract_article_data 3 true 10
                (AINewsScraper.init w1).2).2 = new ++ requests w1 ∧
    a1 ∉ new.
Proof.
  assert (Hrow : mkArticleRow 1 "title 1" (Some "text of a1") (Some a1)
                   (Some "2025-01-01") (Some "Khaleej Times")
                   (Some "2025-01-02 10:00:00") (Some "ai,news") ∈ articles w1)
    by compute_done.
  split; [exact Hrow|].
  exact (ScraperMore.stored_urls_are_not_requested md5 site jitter
           extract_article_links extract_article_data 3 true 10 w1 _ a1
           Hrow eq_refl).
Defined.

(** The endpoint on an empty cache, and on the cache [aged]. *)
Lemma clear_all_cache_answers_witness :
  request_cache w0 = [] ∧
  (Api.clear_all_cache w0).1 = Api.HTTPException 500 ∧
  (Api.clear_all_cache aged).1 = Api.Cleared 3.
Proof.
  destruct (ApiFacts.clear_all_cache_answers w0) as (_ & _ & Hempty & _).
  destruct (ApiFacts.clear_all_cache_answers aged) as (Hok & _).
  split; [reflexivity|]. split; [exact (Hempty eq_refl)|].
  apply Hok. split; [reflexivity|]. split; [reflexivity | discriminate].
Defined.

(** The script on the file [disk]: clearing, and deleting. *)
Lemma reset_database_modes_witness :
  ResetDb.db_file disk = Some aged ∧
  (ResetDb.reset_database "clear" disk).1 = true ∧
  (ResetDb.reset_database "delete" disk).1 = true ∧
  ResetDb.db_file (ResetDb.reset_database "delete" disk).2 = None.
Proof.
  destruct (ResetDbFacts.reset_database_modes "clear" disk aged eq_refl)
    as (_ & Hclear & _).
  destruct (ResetDbFacts.reset_database_modes "delete" disk aged eq_refl)
    as (Hdelete & _).
  destruct (Hclear ltac:(discriminate) eq_refl) as (Hc & _).
  destruct (Hdelete eq_refl eq_refl) as (Hd & Hnone & _).
  split; [reflexivity|]. split; [exact Hc|]. split; [exact Hd | exact Hnone].
Defined.

End MoreRuns.
